(** * Record keeping system: a shallow embedding of [record_keeper.py]

    The development follows the Python source function by function and
    keeps its names.

    - Python [str] values are Rocq strings.  The character operations
      ([strip], [lower], [\d], [\s], [int]) are exact on ASCII text and
      treat every code above 127 as an ordinary character that is
      neither a space, a digit nor a letter.
    - Regular expressions are run by a small backtracking matcher, and
      [datetime.strptime] by the patterns CPython compiles for its
      directives (C locale).
    - The class attribute [DocumentRecord._id_counter], the list
      [self.records] and the two files (the record file and the counter
      file) make up the state; every operation passes it along.  Writing
      a file always succeeds.
    - An exception is an [option]: [None] where the Python code raises.
    - The current time and the optional [pandas] module come from
      outside: the time is an argument, [pandas] a section variable. *)

From Stdlib Require Import ZArith Ascii String List Lia Bool.
From stdpp Require Import base gmap strings list.

Local Open Scope string_scope.
Local Open Scope Z_scope.
Local Open Scope list_scope.

(** ** Python string primitives *)

Module PyStr.

Definition code (c : ascii) : Z := Z.of_N (N_of_ascii c).

(** [str.isspace] on ASCII: TAB..CR, FS..US and the blank. *)
Definition is_space (c : ascii) : bool :=
  let n := code c in
  ((9 <=? n) && (n <=? 13)) || ((28 <=? n) && (n <=? 32)).

(** The whitespace [int()] skips around a literal: TAB..CR and the blank. *)
Definition is_int_space (c : ascii) : bool :=
  let n := code c in
  ((9 <=? n) && (n <=? 13)) || (n =? 32).

Definition is_digit (c : ascii) : bool :=
  let n := code c in (48 <=? n) && (n <=? 57).

Definition is_upper (c : ascii) : bool :=
  let n := code c in (65 <=? n) && (n <=? 90).

Definition is_lower (c : ascii) : bool :=
  let n := code c in (97 <=? n) && (n <=? 122).

Definition is_alpha (c : ascii) : bool := is_upper c || is_lower c.

Definition lower_char (c : ascii) : ascii :=
  if is_upper c then ascii_of_N (N_of_ascii c + 32) else c.

(** [s.lower()] *)
Fixpoint lower (s : string) : string :=
  match s with
  | EmptyString => EmptyString
  | String c s' => String (lower_char c) (lower s')
  end.

Fixpoint lstrip_by (sp : ascii -> bool) (s : string) : string :=
  match s with
  | EmptyString => EmptyString
  | String c s' => if sp c then lstrip_by sp s' else s
  end.

Fixpoint rstrip_by (sp : ascii -> bool) (s : string) : string :=
  match s with
  | EmptyString => EmptyString
  | String c s' =>
      match rstrip_by sp s' with
      | EmptyString => if sp c then EmptyString else String c EmptyString
      | r => String c r
      end
  end.

Definition strip_by (sp : ascii -> bool) (s : string) : string :=
  rstrip_by sp (lstrip_by sp s).

(** [s.strip()] *)
Definition strip (s : string) : string := strip_by is_space s.

(** Python truthiness of a string: [if s:] *)
Definition truthy (s : string) : bool :=
  match s with EmptyString => false | _ => true end.

(** [needle in hay] *)
Fixpoint contains (needle hay : string) : bool :=
  String.prefix needle hay ||
  match hay with
  | EmptyString => false
  | String _ hay' => contains needle hay'
  end.

(** [s.split(sep)] for a non-empty separator: left-to-right,
    non-overlapping.  [skip] counts the characters of a separator that
    has just been recognised and still has to be dropped; [cur] is the
    piece being accumulated. *)
Fixpoint split_aux (sep s cur : string) (skip : nat) : list string :=
  match s with
  | EmptyString => [cur]
  | String c s' =>
      match skip with
      | S k => split_aux sep s' cur k
      | O =>
          if String.prefix sep s
          then cur :: split_aux sep s' EmptyString (String.length sep - 1)
          else split_aux sep s' (cur +:+ String c EmptyString) O
      end
  end.

Definition split (sep s : string) : list string := split_aux sep s EmptyString O.

(** *** Integers as text *)

Definition digit_val (c : ascii) : Z := code c - 48.

Definition digit_char (d : Z) : ascii := ascii_of_N (Z.to_N (d + 48)).

(** The digit part of an [int()] literal: decimal digits, with single
    underscores allowed between digits. [prev] records that the previous
    character was a digit. *)
Fixpoint int_digits (s : string) (acc : Z) (prev : bool) : option Z :=
  match s with
  | EmptyString => if prev then Some acc else None
  | String c s' =>
      if is_digit c then int_digits s' (10 * acc + digit_val c) true
      else if Ascii.eqb c "_"%char && prev then int_digits s' acc false
      else None
  end.

(** [int(s)]: [None] stands for [ValueError]. *)
Definition int (s : string) : option Z :=
  match strip_by is_int_space s with
  | String "-"%char s' => Z.opp <$> int_digits s' 0 false
  | String "+"%char s' => int_digits s' 0 false
  | s' => int_digits s' 0 false
  end.

Fixpoint digits_fuel (fuel : nat) (n : Z) (acc : string) : string :=
  match fuel with
  | O => acc
  | S f =>
      let acc' := String (digit_char (n mod 10)) acc in
      if n <? 10 then acc' else digits_fuel f (n / 10) acc'
  end.

(** Decimal digits of a natural number. *)
Definition digits (n : Z) : string := digits_fuel (S (Z.to_nat n)) n EmptyString.

(** [str(n)] for an integer. *)
Definition str_int (n : Z) : string :=
  if n <? 0 then String "-"%char (digits (- n)) else digits n.

Fixpoint zeros (k : nat) : string :=
  match k with O => EmptyString | S k' => String "0"%char (zeros k') end.

(** [f"{n:03d}"]: sign first, then zeros up to a total width of three. *)
Definition format_03d (n : Z) : string :=
  if n <? 0
  then let d := digits (- n) in String "-"%char (zeros (2 - String.length d) +:+ d)
  else let d := digits n in zeros (3 - String.length d) +:+ d.

End PyStr.

(** ** Regular expressions

    The fragment of Python's [re] the program uses, as a backtracking
    matcher in continuation-passing style: alternatives and greedy
    repetitions are tried in Python's priority order, and the first
    success wins. *)

Module Regex.

Inductive regex : Type :=
| Cls (p : ascii -> bool)                          (* one character of a class *)
| Rep (p : ascii -> bool) (lo : nat) (hi : option nat)  (* class{lo,hi}, greedy *)
| Cat (r1 r2 : regex)
| Alt (r1 r2 : regex)
| Opt (r : regex)                                  (* r?, greedy *)
| Grp (r : regex)                                  (* capturing group *)
| Eos                                              (* $ *)
| Eps.

(** [$] without MULTILINE: the end of the string, or just before a final
    newline. *)
Definition at_end (s : string) : bool :=
  match s with
  | EmptyString => true
  | String c EmptyString => Ascii.eqb c "010"%char
  | _ => false
  end.

Fixpoint take (n : nat) (s : string) : string :=
  match n, s with
  | S n', String c s' => String c (take n' s')
  | _, _ => EmptyString
  end.

(** The text a group matched, given the input before and after it. *)
Definition consumed (before after : string) : string :=
  take (String.length before - String.length after) before.

Fixpoint rep {A} (p : ascii -> bool) (lo : nat) (hi : option nat) (s : string)
    (k : string -> option A) : option A :=
  let stop := match lo with O => k s | S _ => None end in
  match s with
  | String c s' =>
      if match hi with Some O => false | _ => true end && p c then
        match rep p (Nat.pred lo) (Nat.pred <$> hi) s' k with
        | Some x => Some x
        | None => stop
        end
      else stop
  | EmptyString => stop
  end.

(** Groups are recorded when they close; the patterns below have no
    nested groups whose captures are read, so this is Python's
    numbering. *)
Fixpoint run {A} (r : regex) (s : string) (caps : list string)
    (k : string -> list string -> option A) : option A :=
  match r with
  | Cls p =>
      match s with
      | String c s' => if p c then k s' caps else None
      | EmptyString => None
      end
  | Rep p lo hi => rep p lo hi s (fun s' => k s' caps)
  | Cat r1 r2 => run r1 s caps (fun s' caps' => run r2 s' caps' k)
  | Alt r1 r2 =>
      match run r1 s caps k with
      | Some x => Some x
      | None => run r2 s caps k
      end
  | Opt r' =>
      match run r' s caps k with
      | Some x => Some x
      | None => k s caps
      end
  | Grp r' => run r' s caps (fun s' caps' => k s' (caps' ++ [consumed s s']))
  | Eos => if at_end s then k s caps else None
  | Eps => k s caps
  end.

(** [re.match(r, s)]: the groups and the unmatched rest, or [None]. *)
Definition rmatch (r : regex) (s : string) : option (list string * string) :=
  run r s [] (fun rest caps => Some (caps, rest)).

Definition matches (r : regex) (s : string) : bool :=
  match rmatch r s with Some _ => true | None => false end.

(** Pattern building blocks. *)
Definition chr (c : ascii) : regex := Cls (Ascii.eqb c).
Definition chr_ci (c : ascii) : regex :=
  Cls (fun x => Ascii.eqb (PyStr.lower_char x) (PyStr.lower_char c)).
Definition rng (a b : ascii) : regex :=
  Cls (fun x => (PyStr.code a <=? PyStr.code x) && (PyStr.code x <=? PyStr.code b)).
Definition one_of (cs : string) : regex :=
  Cls (fun x => PyStr.contains (String x EmptyString) cs).
Definition d : regex := Cls PyStr.is_digit.                       (* \d *)
Definition d12 : regex := Rep PyStr.is_digit 1 (Some 2%nat).      (* \d{1,2} *)
Definition d2 : regex := Rep PyStr.is_digit 2 (Some 2%nat).       (* \d{2} *)
Definition d4 : regex := Rep PyStr.is_digit 4 (Some 4%nat).       (* \d{4} *)
Definition ws : regex := Rep PyStr.is_space 1 None.               (* \s+ *)
Definition alphas : regex := Rep PyStr.is_alpha 1 None.           (* [A-Za-z]+ *)

Fixpoint seq (rs : list regex) : regex :=
  match rs with
  | [] => Eps
  | [r] => r
  | r :: rs' => Cat r (seq rs')
  end.

Fixpoint alts (rs : list regex) : regex :=
  match rs with
  | [] => Cls (fun _ => false)
  | [r] => r
  | r :: rs' => Alt r (alts rs')
  end.

Fixpoint lit (s : string) : regex :=
  match s with
  | EmptyString => Eps
  | String c s' => Cat (chr c) (lit s')
  end.

Fixpoint lit_ci (s : string) : regex :=
  match s with
  | EmptyString => Eps
  | String c s' => Cat (chr_ci c) (lit_ci s')
  end.

End Regex.

(** ** [datetime]: the parts of [strptime] and [strftime] the program uses *)

Module DateTime.
Import Regex.

Record datetime : Type := mk_datetime {
  year : Z; month : Z; day : Z; hour : Z; minute : Z; second : Z
}.

Definition is_leap (y : Z) : bool :=
  ((y mod 4 =? 0) && negb (y mod 100 =? 0)) || (y mod 400 =? 0).

Definition days_in_month (y m : Z) : Z :=
  if m =? 2 then (if is_leap y then 29 else 28)
  else if (m =? 4) || (m =? 6) || (m =? 9) || (m =? 11) then 30
  else 31.

(** The range checks of the [datetime] constructor ([ValueError]
    otherwise). *)
Definition valid (t : datetime) : bool :=
  (1 <=? year t) && (year t <=? 9999) &&
  (1 <=? month t) && (month t <=? 12) &&
  (1 <=? day t) && (day t <=? days_in_month (year t) (month t)) &&
  (0 <=? hour t) && (hour t <=? 23) &&
  (0 <=? minute t) && (minute t <=? 59) &&
  (0 <=? second t) && (second t <=? 59).

(** Month names of the C locale, as [%B] tries them: longest first. *)
Definition month_names : list (string * Z) :=
  [("september", 9); ("february", 2); ("november", 11); ("december", 12);
   ("january", 1); ("october", 10); ("august", 8); ("march", 3);
   ("april", 4); ("june", 6); ("july", 7); ("may", 5)].

Definition month_index (name : string) : Z :=
  match List.find (fun p => String.eqb (fst p) name) month_names with
  | Some p => snd p
  | None => 1
  end.

(** The regular expression [_strptime] compiles for a directive. *)
Definition directive (c : ascii) : regex :=
  if Ascii.eqb c "d" then
    alts [Cat (chr "3") (rng "0" "1"); Cat (rng "1" "2") d; Cat (chr "0") (rng "1" "9");
          rng "1" "9"; Cat (chr " ") (rng "1" "9")]
  else if Ascii.eqb c "H" then
    alts [Cat (chr "2") (rng "0" "3"); Cat (rng "0" "1") d; d]
  else if Ascii.eqb c "I" || Ascii.eqb c "m" then
    alts [Cat (chr "1") (rng "0" "2"); Cat (chr "0") (rng "1" "9"); rng "1" "9"]
  else if Ascii.eqb c "M" then
    alts [Cat (rng "0" "5") d; d]
  else if Ascii.eqb c "S" then
    alts [Cat (chr "6") (rng "0" "1"); Cat (rng "0" "5") d; d]
  else if Ascii.eqb c "Y" then
    seq [d; d; d; d]
  else if Ascii.eqb c "B" then
    alts (map (fun p => lit_ci (fst p)) month_names)
  else if Ascii.eqb c "p" then
    alts [lit_ci "am"; lit_ci "pm"]
  else Cls (fun _ => false).

(** [TimeRE.pattern]: directives become groups, a run of whitespace
    becomes [\s+], anything else is matched literally (the compiled
    pattern ignores case).  Returns the pattern and the directives in
    the order of their groups. *)
Fixpoint pattern_aux (fmt : string) (in_space : bool) : regex * list ascii :=
  match fmt with
  | EmptyString => (Eps, [])
  | String c rest =>
      if Ascii.eqb c "%" then
        match rest with
        | String dc rest' =>
            let (r, ds) := pattern_aux rest' false in
            (Cat (Grp (directive dc)) r, dc :: ds)
        | EmptyString => (Cls (fun _ => false), [])
        end
      else if PyStr.is_space c then
        let (r, ds) := pattern_aux rest true in
        (if in_space then r else Cat ws r, ds)
      else
        let (r, ds) := pattern_aux rest false in
        (Cat (chr_ci c) r, ds)
  end.

Definition pattern (fmt : string) : regex * list ascii := pattern_aux fmt false.

Fixpoint found (key : ascii) (keys : list ascii) (vals : list string) : option string :=
  match keys, vals with
  | k :: keys', v :: vals' => if Ascii.eqb k key then Some v else found key keys' vals'
  | _, _ => None
  end.

Definition int_of (s : string) : Z := default 0 (PyStr.int s).

(** The 12-hour clock of [%I] with [%p]. *)
Definition hour12 (h : Z) (ampm : string) : Z :=
  if String.eqb ampm "pm" then (if h =? 12 then 12 else h + 12)
  else (if h =? 12 then 0 else h).

(** [datetime.strptime(s, fmt)]; [None] stands for [ValueError].  The
    compiled pattern must match a prefix of [s] and leave nothing over;
    fields that the format does not mention default to 1900-01-01
    00:00:00. *)
Definition strptime (s fmt : string) : option datetime :=
  let (r, keys) := pattern fmt in
  match rmatch r s with
  | None => None
  | Some (vals, rest) =>
      if PyStr.truthy rest then None
      else
        let get k := found k keys vals in
        let y := from_option int_of 1900 (get "Y"%char) in
        let m := match get "m"%char with
                 | Some v => int_of v
                 | None => from_option (fun v => month_index (PyStr.lower v)) 1 (get "B"%char)
                 end in
        let dd := from_option int_of 1 (get "d"%char) in
        let h := match get "H"%char with
                 | Some v => int_of v
                 | None =>
                     match get "I"%char with
                     | Some v => hour12 (int_of v) (PyStr.lower (default EmptyString (get "p"%char)))
                     | None => 0
                     end
                 end in
        let mi := from_option int_of 0 (get "M"%char) in
        let se := from_option int_of 0 (get "S"%char) in
        let t := mk_datetime y m dd h mi se in
        if valid t then Some t else None
  end.

Definition pad (w : nat) (n : Z) : string :=
  let ds := PyStr.digits n in PyStr.zeros (w - String.length ds) +:+ ds.

(** [t.strftime('%Y-%m-%d')], the year written with four digits. *)
Definition strftime_date (t : datetime) : string :=
  pad 4 (year t) +:+ "-" +:+ pad 2 (month t) +:+ "-" +:+ pad 2 (day t).

(** [t.strftime('%Y-%m-%d %H:%M:%S')] *)
Definition strftime_datetime (t : datetime) : string :=
  strftime_date t +:+ " " +:+ pad 2 (hour t) +:+ ":" +:+ pad 2 (minute t)
    +:+ ":" +:+ pad 2 (second t).

(** [datetime.combine(d.date(), t.time())] *)
Definition combine (d t : datetime) : datetime :=
  mk_datetime (year d) (month d) (day d) (hour t) (minute t) (second t).

End DateTime.

(** ** The record store *)

Import Regex.

(** [class DocumentRecord]: the six attributes of an instance. *)
Record DocumentRecord : Type := mk_record {
  id : string;
  date : string;
  sender : string;
  subject : string;
  destination : string;
  status : string
}.

(** One object of [records.json].  Files written by an older version
    have no [status] key. *)
Record StoredRecord : Type := mk_stored {
  s_id : string;
  s_date : string;
  s_sender : string;
  s_subject : string;
  s_destination : string;
  s_status : option string
}.

(** The record file: missing, present but not loadable ([json.load]
    raises), or a list of record objects. *)
Inductive DataFile : Type :=
| NoFile
| Unreadable
| Stored (data : list StoredRecord).

(** What the program reads and writes: the class attribute
    [DocumentRecord._id_counter] ([None] until a counter has been
    loaded), the list [self.records], and the two files.  File writes
    are taken to succeed. *)
Record State : Type := mk_state {
  _id_counter : option Z;
  records : list DocumentRecord;
  data_file : DataFile;
  counter_file : option string
}.

Definition set_counter (c : option Z) (st : State) : State :=
  mk_state c (records st) (data_file st) (counter_file st).
Definition set_records (rs : list DocumentRecord) (st : State) : State :=
  mk_state (_id_counter st) rs (data_file st) (counter_file st).
Definition set_data_file (f : DataFile) (st : State) : State :=
  mk_state (_id_counter st) (records st) f (counter_file st).
Definition set_counter_file (f : option string) (st : State) : State :=
  mk_state (_id_counter st) (records st) (data_file st) f.

(** [DocumentRecord._generate_id]: [None] is the [TypeError] of
    [None += 1]. *)
Definition _generate_id (c : option Z) : option (string * option Z) :=
  match c with
  | Some n => Some ("MAYOR'S OFFICE - " +:+ PyStr.format_03d (n + 1), Some (n + 1))
  | None => None
  end.

Definition opt_truthy (o : option string) : bool :=
  match o with Some s => PyStr.truthy s | None => false end.

Definition in_list (s : string) (l : list string) : bool :=
  existsb (String.eqb s) l.

(** [DocumentRecord.__init__]; [now] is
    [datetime.now().strftime("%Y-%m-%d %H:%M:%S")]. Threads the class
    counter. *)
Definition new_record (now : string) (sender subject destination : string)
    (date record_id : option string) (auto_date : bool) (status : string)
    (c : option Z) : option (DocumentRecord * option Z) :=
  match (if opt_truthy record_id then Some (default EmptyString record_id, c)
         else _generate_id c) with
  | None => None
  | Some (the_id, c') =>
      let the_date :=
        if opt_truthy date then default EmptyString date
        else if auto_date then now
        else "No Date" in
      let the_status :=
        if in_list status ["Done"; "Completed"] then "Completed" else "Pending" in
      Some (mk_record the_id the_date sender subject destination the_status, c')
  end.

(** [DocumentRecord.to_dict] *)
Definition to_dict (r : DocumentRecord) : StoredRecord :=
  mk_stored (id r) (date r) (sender r) (subject r) (destination r) (Some (status r)).

(** [DocumentRecord.from_dict] *)
Definition from_dict (now : string) (data : StoredRecord) (c : option Z)
    : option (DocumentRecord * option Z) :=
  let status := default "Pending" (s_status data) in
  new_record now (s_sender data) (s_subject data) (s_destination data)
    (Some (s_date data)) (Some (s_id data)) true status c.

(** [[DocumentRecord.from_dict(d) for d in data]] *)
Fixpoint from_dicts (now : string) (data : list StoredRecord) (c : option Z)
    : option (list DocumentRecord * option Z) :=
  match data with
  | [] => Some ([], c)
  | d :: data' =>
      match from_dict now d c with
      | None => None
      | Some (r, c') =>
          match from_dicts now data' c' with
          | None => None
          | Some (rs, c'') => Some (r :: rs, c'')
          end
      end
  end.

(** [RecordKeeper.save_records] *)
Definition save_records (st : State) : State :=
  set_data_file (Stored (map to_dict (records st))) st.

(** [str(DocumentRecord._id_counter)] *)
Definition counter_text (c : option Z) : string :=
  match c with Some n => PyStr.str_int n | None => "None" end.

(** [RecordKeeper._save_counter] *)
Definition _save_counter (st : State) : State :=
  set_counter_file (Some (counter_text (_id_counter st))) st.

(** [RecordKeeper._load_counter] *)
Definition _load_counter (st : State) : State :=
  match counter_file st with
  | Some text => set_counter (Some (default 0 (PyStr.int (PyStr.strip text)))) st
  | None => set_counter (Some 0) st
  end.

(** *** Date normalizer *)

Section WithPandas.

(** The optional [pandas] import: [None] when the import failed
    ([PANDAS_AVAILABLE = False]); otherwise what
    [pd.to_datetime(s, infer_datetime_format=True)] gives, [None] for an
    exception or [NaT]. *)
Variable pandas : option (string -> option DateTime.datetime).

Definition PANDAS_AVAILABLE : bool :=
  match pandas with Some _ => true | None => false end.

Definition date_patterns : list (regex * string) :=
  [ (seq [Grp d12; one_of "./"; Grp d12; one_of "./"; Grp d4; Eos], "us_format");
    (seq [Grp d12; chr "-"; Grp d12; chr "-"; Grp d4; Eos], "%m-%d-%Y");
    (seq [Grp d4; chr "-"; Grp d12; chr "-"; Grp d12; Eos], "%Y-%m-%d");
    (seq [Grp d4; chr "-"; Grp d12; chr "-"; Grp d12; ws;
          Grp d12; chr ":"; Grp d12; chr ":"; Grp d12; Eos], "%Y-%m-%d %H:%M:%S");
    (seq [Grp d12; one_of "./"; Grp d12; one_of "./"; Grp d4; ws;
          Grp d12; chr ":"; Grp d12; chr ":"; Grp d12; Eos], "us_format_time") ].

(** Date only when the time of day is midnight, date and time
    otherwise. *)
Definition format_parsed (t : DateTime.datetime) : string :=
  if (DateTime.hour t =? 0) && (DateTime.minute t =? 0) && (DateTime.second t =? 0)
  then DateTime.strftime_date t
  else DateTime.strftime_datetime t.

(** The body of the [try] for one pattern that matched with groups
    [gs]; [None] is the [ValueError] that makes the loop continue. *)
Definition parse_matched (date_str format_str : string) (gs : list string)
    : option DateTime.datetime :=
  if String.eqb format_str "us_format" then
    match gs with
    | [mo; da; ye] => DateTime.strptime (mo +:+ "/" +:+ da +:+ "/" +:+ ye) "%m/%d/%Y"
    | _ => None
    end
  else if String.eqb format_str "us_format_time" then
    match gs with
    | [mo; da; ye; ho; mi; se] =>
        DateTime.strptime
          (mo +:+ "/" +:+ da +:+ "/" +:+ ye +:+ " " +:+ ho +:+ ":" +:+ mi +:+ ":" +:+ se)
          "%m/%d/%Y %H:%M:%S"
    | _ => None
    end
  else DateTime.strptime date_str format_str.

(** The [for pattern, format_str in date_patterns] loop: the first
    pattern that matches and parses decides. *)
Fixpoint try_patterns (date_str : string) (ps : list (regex * string)) : option string :=
  match ps with
  | [] => None
  | (pat, format_str) :: ps' =>
      match rmatch pat date_str with
      | Some (gs, _) =>
          match parse_matched date_str format_str gs with
          | Some t => Some (format_parsed t)
          | None => try_patterns date_str ps'
          end
      | None => try_patterns date_str ps'
      end
  end.

(** The [pandas] fallback; [None] when it yields nothing. *)
Definition pandas_fallback (date_str : string) : option string :=
  match pandas with
  | Some to_datetime => format_parsed <$> to_datetime date_str
  | None => None
  end.

(** [RecordKeeper._parse_and_format_date]; [None] is Python's [None]. *)
Definition _parse_and_format_date (date_str : string) : option string :=
  if negb (PyStr.truthy date_str)
     || in_list (PyStr.lower (PyStr.strip date_str)) ["nan"; "nat"; "none"; EmptyString]
  then None
  else
    let date_str := PyStr.strip date_str in
    match try_patterns date_str date_patterns with
    | Some r => Some r
    | None =>
        match pandas_fallback date_str with
        | Some r => Some r
        | None => Some date_str
        end
    end.

(** [RecordKeeper._is_readable_format] *)
Definition _is_readable_format (date_str : string) : bool :=
  if negb (PyStr.truthy date_str) || String.eqb date_str "No Date" then false
  else
    existsb (fun pat => matches pat date_str)
      [ seq [alphas; chr " "; d12; lit ", "; d4; Eos];
        seq [alphas; chr " "; d12; lit ", "; d4; lit " at "; d12; chr ":"; d2;
             chr " "; one_of "AP"; chr "M"; Eos] ].

(** [RecordKeeper._convert_readable_to_iso] *)
Definition _convert_readable_to_iso (date_str : string) : option string :=
  if negb (PyStr.truthy date_str) then None
  else if PyStr.contains " at " date_str then
    match PyStr.split " at " date_str with
    | [date_part; time_part] =>
        match DateTime.strptime date_part "%B %d, %Y" with
        | Some parsed_date =>
            match DateTime.strptime time_part "%I:%M %p" with
            | Some parsed_time =>
                Some (DateTime.strftime_datetime (DateTime.combine parsed_date parsed_time))
            | None => Some date_str
            end
        | None => Some date_str
        end
    | _ => Some date_str
    end
  else
    match DateTime.strptime date_str "%B %d, %Y" with
    | Some parsed_date => Some (DateTime.strftime_date parsed_date)
    | None => Some date_str
    end.

(** [RecordKeeper._needs_date_format_update] *)
Definition _needs_date_format_update (date_str : string) : bool :=
  if negb (PyStr.truthy date_str) || String.eqb date_str "No Date" then false
  else
    let time_of_day := Opt (Grp (seq [ws; d12; chr ":"; d2; chr ":"; d2])) in
    let us_format_pattern :=
      seq [d12; one_of "./"; d12; one_of "./"; d4; time_of_day; Eos] in
    let iso_pattern := seq [d4; chr "-"; d12; chr "-"; d12; time_of_day; Eos] in
    matches us_format_pattern date_str && negb (matches iso_pattern date_str).

(** *** Loading *)

(** One iteration of the loop of [_update_existing_dates_to_iso]: the
    record after it, and whether its date was rewritten. *)
Definition update_date (r : DocumentRecord) : DocumentRecord * bool :=
  let keep := (r, false) in
  let rewrite_to new_date :=
    match new_date with
    | Some nd =>
        if PyStr.truthy nd && negb (String.eqb nd (date r))
        then (mk_record (id r) nd (sender r) (subject r) (destination r) (status r), true)
        else keep
    | None => keep
    end in
  if PyStr.truthy (date r) && negb (String.eqb (date r) "No Date") then
    if _is_readable_format (date r) then rewrite_to (_convert_readable_to_iso (date r))
    else if _needs_date_format_update (date r) then rewrite_to (_parse_and_format_date (date r))
    else keep
  else keep.

(** [RecordKeeper._update_existing_dates_to_iso] *)
Definition _update_existing_dates_to_iso (st : State) : State :=
  let results := map update_date (records st) in
  let updated_count := length (filter (fun p => snd p = true) results) in
  let st' := set_records (map fst results) st in
  if (0 <? updated_count)%nat then save_records st' else st'.

(** The number after [' - '] in an id, when the id has exactly two
    parts and the second reads as an integer. *)
Definition id_number (the_id : string) : option Z :=
  match PyStr.split " - " the_id with
  | [_; number_str] => PyStr.int number_str
  | _ => None
  end.

(** The loop of [_initialize_counter_from_records]. *)
Definition max_counter_of (rs : list DocumentRecord) : Z :=
  fold_left
    (fun max_counter r =>
       match id_number (id r) with
       | Some number => Z.max max_counter number
       | None => max_counter
       end)
    rs 0.

(** [RecordKeeper._initialize_counter_from_records] *)
Definition _initialize_counter_from_records (st : State) : State :=
  match records st with
  | [] => st
  | _ =>
      let max_counter := max_counter_of (records st) in
      let c :=
        match _id_counter st with
        | None => Some max_counter
        | Some n => if n <? max_counter then Some max_counter else Some n
        end in
      _save_counter (set_counter c st)
  end.

(** [RecordKeeper.load_records] *)
Definition load_records (now : string) (st : State) : State :=
  match data_file st with
  | NoFile => st
  | Unreadable => set_records [] st
  | Stored data =>
      match from_dicts now data (_id_counter st) with
      | None => set_records [] st
      | Some (rs, c) =>
          _initialize_counter_from_records
            (_update_existing_dates_to_iso (set_records rs (set_counter c st)))
      end
  end.

(** [RecordKeeper.__init__], run against the class counter and the two
    files it finds. *)
Definition init (now : string) (class_counter : option Z) (data : DataFile)
    (counter : option string) : State :=
  _load_counter (load_records now (mk_state class_counter [] data counter)).

(** *** Create, read, update, delete *)

(** [RecordKeeper.add_record]; [None] is the exception of the
    constructor. *)
Definition add_record (now : string) (sender subject destination : string)
    (date : option string) (st : State) : option (DocumentRecord * State) :=
  match new_record now sender subject destination date None true "Pending" (_id_counter st) with
  | None => None
  | Some (record, c) =>
      Some (record, _save_counter (save_records (set_records (records st ++ [record]) (set_counter c st))))
  end.



(** The first record with the given id removed, if there is one. *)
Fixpoint delete_first (record_id : string) (rs : list DocumentRecord)
    : option (list DocumentRecord) :=
  match rs with
  | [] => None
  | r :: rs' =>
      if String.eqb (id r) record_id then Some rs'
      else cons r <$> delete_first record_id rs'
  end.

(** [RecordKeeper.delete_record] *)
Definition delete_record (record_id : string) (st : State) : bool * State :=
  match delete_first record_id (records st) with
  | Some rs =>
      let st' := save_records (set_records rs st) in
      (true,
       if (length (records st') =? 0)%nat
       then _save_counter (set_counter (Some 0) st')
       else st')
  | None => (false, st)
  end.

(** The keyword arguments of [edit_record]: [None] for a key that is
    not passed. *)
Record Edits : Type := mk_edits {
  e_sender : option string;
  e_subject : option string;
  e_destination : option string;
  e_date : option string;
  e_status : option string
}.

Definition apply_edits (kwargs : Edits) (r : DocumentRecord) : DocumentRecord :=
  mk_record (id r)
    (default (date r) (e_date kwargs))
    (default (sender r) (e_sender kwargs))
    (default (subject r) (e_subject kwargs))
    (default (destination r) (e_destination kwargs))
    (default (status r) (e_status kwargs)).

(** The first record with the given id edited, if there is one. *)
Fixpoint edit_first (record_id : string) (kwargs : Edits) (rs : list DocumentRecord)
    : option (list DocumentRecord) :=
  match rs with
  | [] => None
  | r :: rs' =>
      if String.eqb (id r) record_id then Some (apply_edits kwargs r :: rs')
      else cons r <$> edit_first record_id kwargs rs'
  end.

(** [RecordKeeper.edit_record] *)
Definition edit_record (record_id : string) (kwargs : Edits) (st : State) : bool * State :=
  match edit_first record_id kwargs (records st) with
  | Some rs => (true, save_records (set_records rs st))
  | None => (false, st)
  end.

(** [RecordKeeper.mark_as_completed] *)
Definition mark_as_completed (record_id : string) : State -> bool * State :=
  edit_record record_id (mk_edits None None None None (Some "Completed")).

(** [RecordKeeper.mark_as_pending] *)
Definition mark_as_pending (record_id : string) : State -> bool * State :=
  edit_record record_id (mk_edits None None None None (Some "Pending")).

(** *** Statistics *)

Record Statistics : Type := mk_statistics {
  total_records : nat;
  unique_senders : nat;
  unique_destinations : nat;
  pending_count : nat;
  completed_count : nat;
  senders : list string;
  destinations : list string
}.

(** [set(f(record) for record in records if f(record))] *)
Definition distinct_nonempty (f : DocumentRecord -> string) (rs : list DocumentRecord)
    : gset string :=
  list_to_set (filter (fun s => PyStr.truthy s = true) (map f rs)).

(** [sum(1 for record in records if record.status == s)] *)
Definition count_status (s : string) (rs : list DocumentRecord) : nat :=
  length (filter (fun r => status r = s) rs).

(** [RecordKeeper.get_statistics]; a Python set lists its elements in
    no particular order, here the order of [elements]. *)
Definition get_statistics (st : State) : Statistics :=
  match records st with
  | [] => mk_statistics 0 0 0 0 0 [] []
  | rs =>
      let the_senders := distinct_nonempty sender rs in
      let the_destinations := distinct_nonempty destination rs in
      mk_statistics (length rs) (size the_senders) (size the_destinations)
        (count_status "Pending" rs) (count_status "Completed" rs)
        (elements the_senders) (elements the_destinations)
  end.

(** *** Tabular import *)

(** A cell of the sheet as the loop sees it: missing ([pd.notna] is
    false), a value with its text [str(value)], or a cell whose access
    or conversion raises. *)
Inductive cell : Type :=
| NA
| Val (text : string)
| Faulty.

(** What [pd.read_excel] returns: column labels (distinct) and rows with
    one cell per column. *)
Record DataFrame : Type := mk_frame {
  columns : list string;
  rows : list (list cell)
}.

(** [{col.lower().strip(): col for col in df.columns}]: a later column
    replaces an earlier one with the same key. *)
Definition normalize_columns (cols : list string) : gmap string string :=
  fold_left (fun m col => <[PyStr.strip (PyStr.lower col) := col]> m) cols ∅.

(** [row[col]] *)
Fixpoint row_get (cols : list string) (row : list cell) (col : string) : cell :=
  match cols, row with
  | c :: cols', x :: row' => if String.eqb c col then x else row_get cols' row' col
  | _, _ => Faulty
  end.

(** [str(row[col]).strip()] when [col and pd.notna(row[col])], the empty
    string otherwise;
    [None] when the cell raises. *)
Definition field (cols : list string) (row : list cell) (col : option string)
    : option string :=
  if opt_truthy col then
    match row_get cols row (default EmptyString col) with
    | NA => Some EmptyString
    | Val text => Some (PyStr.strip text)
    | Faulty => None
    end
  else Some EmptyString.

(** The variables of the row loop. *)
Record Loop : Type := mk_loop {
  l_records : list DocumentRecord;
  l_counter : option Z;
  imported_count : nat;
  error_count : nat
}.

Definition row_error (l : Loop) : Loop :=
  mk_loop (l_records l) (l_counter l) (imported_count l) (S (error_count l)).

Definition row_append (r : DocumentRecord) (c : option Z) (l : Loop) : Loop :=
  mk_loop (l_records l ++ [r]) c (S (imported_count l)) (error_count l).

(** The body of [for index, row in df.iterrows()], with its
    [try]/[except]: an exception counts an error, a row without sender
    or subject is passed over, any other row becomes a record. *)
Definition import_row (cols : list string) (normalized_columns : gmap string string)
    (destination_col : option string) (l : Loop) (row : list cell) : Loop :=
  let sender_col := normalized_columns !! "sender" in
  let subject_col := normalized_columns !! "subject" in
  let date_col := normalized_columns !! "date" in
  match field cols row sender_col with
  | None => row_error l
  | Some sender =>
  match field cols row subject_col with
  | None => row_error l
  | Some subject =>
  match field cols row destination_col with
  | None => row_error l
  | Some destination =>
      if negb (PyStr.truthy sender) || negb (PyStr.truthy subject) then l
      else
        match field cols row date_col with
        | None => row_error l
        | Some raw_date =>
            let date :=
              if PyStr.truthy raw_date then _parse_and_format_date raw_date else None in
            match new_record EmptyString sender subject destination date None false
                    "Pending" (l_counter l) with
            | None => row_error l
            | Some (record, c) => row_append record c l
            end
        end
  end end end.

(** The state a bulk load starts from: the current one, or the emptied
    one with the counter reset and saved. *)
Definition begin_load (replace_existing : bool) (st : State) : State :=
  if replace_existing then _save_counter (set_counter (Some 0) (set_records [] st))
  else st.

(** The end of a bulk load: save when something was loaded, otherwise
    put the old records back unless replacing. *)
Definition end_load (replace_existing : bool) (original_records : list DocumentRecord)
    (st : State) (l : Loop) : bool * State :=
  let st' := set_records (l_records l) (set_counter (l_counter l) st) in
  if (0 <? imported_count l)%nat then (true, save_records st')
  else (false, if replace_existing then st' else set_records original_records st').

(** The row loop of [import_from_excel] on a frame, from state [st]. *)
Definition import_rows (df : DataFrame) (st : State) : Loop :=
  let normalized_columns := normalize_columns (columns df) in
  let destination_col :=
    match normalized_columns !! "destination" with
    | Some col => Some col
    | None => normalized_columns !! "to"
    end in
  fold_left (import_row (columns df) normalized_columns destination_col)
    (rows df) (mk_loop (records st) (_id_counter st) 0 0).

(** [RecordKeeper.import_from_excel]; [file] is [None] when the file
    does not exist or cannot be read. *)
Definition import_from_excel (file : option DataFrame) (replace_existing : bool)
    (st : State) : bool * State :=
  if negb PANDAS_AVAILABLE then (false, st)
  else
    match file with
    | None => (false, st)
    | Some df =>
        let normalized_columns := normalize_columns (columns df) in
        let missing_columns :=
          filter (fun col => normalized_columns !! col = None) ["sender"; "subject"] in
        match missing_columns with
        | [] =>
            let st1 := begin_load replace_existing st in
            end_load replace_existing (records st) st1 (import_rows df st1)
        | _ :: _ => (false, st)
        end
    end.

(** *** Backup restore *)

(** One element of the [records] block of a backup: an object with
    optional string members, or something that is not an object. *)
Inductive BackupEntry : Type :=
| NotAnObject
| Entry (b_sender b_subject b_destination b_date b_status : option string).

(** A backup file: whether it has a [backup_info] member, and its
    [records] member if it has one. *)
Record Backup : Type := mk_backup {
  has_backup_info : bool;
  backup_records : option (list BackupEntry)
}.

(** The body of [for record_data in records_data]. *)
Definition restore_entry (l : Loop) (record_data : BackupEntry) : Loop :=
  match record_data with
  | NotAnObject => row_error l
  | Entry b_sender b_subject b_destination b_date b_status =>
      let sender := default EmptyString b_sender in
      let subject := default EmptyString b_subject in
      let destination := default EmptyString b_destination in
      let status := default "Pending" b_status in
      if negb (PyStr.truthy sender) || negb (PyStr.truthy subject) then l
      else
        match new_record EmptyString sender subject destination b_date None false
                status (l_counter l) with
        | None => row_error l
        | Some (record, c) => row_append record c l
        end
  end.

(** [RecordKeeper.restore_from_backup]; [file] is [None] when the file
    does not exist or is not JSON. *)
Definition restore_from_backup (file : option Backup) (replace_existing : bool)
    (st : State) : bool * State :=
  match file with
  | None => (false, st)
  | Some backup_data =>
      match has_backup_info backup_data, backup_records backup_data with
      | true, Some records_data =>
          let st1 := begin_load replace_existing st in
          end_load replace_existing (records st) st1
            (fold_left restore_entry records_data
               (mk_loop (records st1) (_id_counter st1) 0 0))
      | _, _ => (false, st)
      end
  end.

End WithPandas.

(** ** The rest of [RecordKeeper] *)

(** [s.startswith(p)] *)
Definition startswith (p s : string) : bool := String.prefix p s.

(** [a <= b] on strings: lexicographic, by character code. *)
Fixpoint str_le (a b : string) : bool :=
  match a, b with
  | EmptyString, _ => true
  | String _ _, EmptyString => false
  | String x a', String y b' =>
      if PyStr.code x <? PyStr.code y then true
      else if PyStr.code x =? PyStr.code y then str_le a' b'
      else false
  end.

(** [RecordKeeper.get_all_records] *)
Definition get_all_records (st : State) : list DocumentRecord := records st.

(** [record.date.split(' ')[0]] *)
Definition date_part (d : string) : string := hd EmptyString (PyStr.split " " d).

(** [RecordKeeper.get_records_by_date_range] *)
Definition get_records_by_date_range (start_date end_date : string) (st : State)
    : list DocumentRecord :=
  fold_left
    (fun matching_records record =>
       let record_date := date_part (date record) in
       if str_le start_date record_date && str_le record_date end_date
       then matching_records ++ [record]
       else matching_records)
    (records st) [].

(** [RecordKeeper.mark_as_done] *)
Definition mark_as_done (record_id : string) : State -> bool * State :=
  mark_as_completed record_id.

(** One iteration of the loop of [update_existing_ids_to_new_format]:
    the record after it, and whether its id was rewritten. *)
Definition new_format_id (r : DocumentRecord) : DocumentRecord * bool :=
  if startswith "LGU_TNGLN-MAYOR'S OFFICE - " (id r) then
    let old_id_parts := PyStr.split " - " (id r) in
    if (2 <=? length old_id_parts)%nat then
      let number_part := List.last old_id_parts EmptyString in
      (mk_record ("MAYOR'S OFFICE - " +:+ number_part) (date r) (sender r) (subject r)
         (destination r) (status r), true)
    else (r, false)
  else (r, false).

(** [RecordKeeper.update_existing_ids_to_new_format] *)
Definition update_existing_ids_to_new_format (st : State) : bool * State :=
  let results := map new_format_id (records st) in
  let updated_count := length (filter (fun p => snd p = true) results) in
  let st' := set_records (map fst results) st in
  (true, if (0 <? updated_count)%nat then save_records st' else st').

(** [RecordKeeper.reset_all_data] *)
Definition reset_all_data (st : State) : bool * State :=
  (true, _save_counter (set_counter (Some 0) (save_records (set_records [] st)))).

(** ** The web layer: backup download and bulk delete ([app.py]) *)

(** A record object as it sits in the [records] block of a backup file. *)
Definition backup_entry (d : StoredRecord) : BackupEntry :=
  Entry (Some (s_sender d)) (Some (s_subject d)) (Some (s_destination d))
    (Some (s_date d)) (s_status d).

(** The backup file [export_backup] writes; [None] when there are no
    records and the route only redirects. *)
Definition export_backup (st : State) : option Backup :=
  match get_all_records st with
  | [] => None
  | rs => Some (mk_backup true (Some (map backup_entry (map to_dict rs))))
  end.

(** The [delete] branch of [bulk_action] for an admin: the state after
    it and [success_count]. *)
Definition bulk_delete (record_ids : list string) (st : State) : nat * State :=
  fold_left
    (fun acc record_id =>
       let '(success_count, st') := acc in
       let '(ok, st'') := delete_record record_id st' in
       if ok then (S success_count, st'') else (success_count, st''))
    record_ids (0%nat, st).

(** ** System settings ([app.py]) *)

(** A settings value: a string, a boolean, or an object with its
    members in insertion order. *)
#[warnings="-register-all"]
Inductive setting : Type :=
| SStr (s : string)
| SBool (b : bool)
| SDict (items : list (string * setting)).

(** [d[key]] on the members of an object; [None] is [KeyError]. *)
Fixpoint dict_get (key : string) (items : list (string * setting)) : option setting :=
  match items with
  | [] => None
  | (k, v) :: items' => if String.eqb k key then Some v else dict_get key items'
  end.

(** [d[key] = value]: an existing member keeps its place, a new one goes
    last. *)
Fixpoint dict_set (key : string) (value : setting) (items : list (string * setting))
    : list (string * setting) :=
  match items with
  | [] => [(key, value)]
  | (k, v) :: items' =>
      if String.eqb k key then (k, value) :: items'
      else (k, v) :: dict_set key value items'
  end.

(** The loop of [get_setting]; [None] is the [KeyError] or [TypeError]
    the function catches. *)
Fixpoint get_path (keys : list string) (current : setting) : option setting :=
  match keys with
  | [] => Some current
  | key :: keys' =>
      match current with
      | SDict items =>
          match dict_get key items with
          | Some v => get_path keys' v
          | None => None
          end
      | _ => None
      end
  end.

(** [SystemSettings.get_setting] *)
Definition get_setting (key_path : string) (default_value : setting) (settings : setting)
    : setting :=
  default default_value (get_path (PyStr.split "." key_path) settings).

(** The body of [update_setting] on the list of keys; [None] is the
    [TypeError] raised when the path runs into a value that is not an
    object. *)
Fixpoint set_path (keys : list string) (value : setting) (current : setting)
    : option setting :=
  match keys with
  | [] => None
  | [key] =>
      match current with
      | SDict items => Some (SDict (dict_set key value items))
      | _ => None
      end
  | key :: keys' =>
      match current with
      | SDict items =>
          let child := default (SDict []) (dict_get key items) in
          match set_path keys' value child with
          | Some child' => Some (SDict (dict_set key child' items))
          | None => None
          end
      | _ => None
      end
  end.

(** [SystemSettings.update_setting] *)
Definition update_setting (key_path : string) (value : setting) (settings : setting)
    : option setting :=
  set_path (PyStr.split "." key_path) value settings.

(** ** Users and permissions *)

Section WithHash.

(** [hashlib.sha256(password.encode()).hexdigest()] *)
Variable sha256 : string -> string.

(** [class User] *)
Record User : Type := mk_user {
  username : string;
  password_hash : string;
  role : string
}.

(** [User.__init__] *)
Definition new_user (name password the_role : string) : User :=
  mk_user name (sha256 password) the_role.

(** [User.verify_password] *)
Definition verify_password (u : User) (password : string) : bool :=
  String.eqb (sha256 password) (password_hash u).

(** The users file: missing, not loadable, or an object keyed by user
    name. *)
Inductive UsersFile : Type :=
| NoUsersFile
| UsersUnreadable
| UsersStored (data : gmap string User).

(** An [AuthManager]: the dictionary [self.users], the logged-in user,
    and the users file.  [self.current_user] is always one of the
    objects held in [self.users]; it is kept as the key it is stored
    under, so that a change to that object shows through both. *)
Record Auth : Type := mk_auth {
  users : gmap string User;
  current_user : option string;
  users_file : UsersFile
}.

(** [AuthManager.get_current_user] *)
Definition get_current_user (a : Auth) : option User :=
  match current_user a with
  | Some key => users a !! key
  | None => None
  end.

(** [AuthManager.save_users] *)
Definition save_users (a : Auth) : Auth :=
  mk_auth (users a) (current_user a) (UsersStored (users a)).

(** [AuthManager.load_users] *)
Definition load_users (a : Auth) : Auth :=
  match users_file a with
  | NoUsersFile => a
  | UsersUnreadable => mk_auth ∅ (current_user a) (users_file a)
  | UsersStored data => mk_auth data (current_user a) (users_file a)
  end.

(** [AuthManager._ensure_default_admin] *)
Definition _ensure_default_admin (a : Auth) : Auth :=
  if decide (users a = ∅) then
    let admin := new_user "admin" "admin123" "admin" in
    let regular_user := new_user "user" "user123" "user" in
    save_users
      (mk_auth (<["user" := regular_user]> (<["admin" := admin]> (users a)))
         (current_user a) (users_file a))
  else a.

(** [AuthManager.__init__] *)
Definition auth_init (file : UsersFile) : Auth :=
  _ensure_default_admin (load_users (mk_auth ∅ None file)).

(** [AuthManager.login] *)
Definition login (name password : string) (a : Auth) : bool * Auth :=
  match users a !! name with
  | Some user =>
      if verify_password user password
      then (true, mk_auth (users a) (Some name) (users_file a))
      else (false, a)
  | None => (false, a)
  end.

(** [AuthManager.logout] *)
Definition logout (a : Auth) : Auth := mk_auth (users a) None (users_file a).

(** [AuthManager.is_logged_in] *)
Definition is_logged_in (a : Auth) : bool :=
  match get_current_user a with Some _ => true | None => false end.

(** [AuthManager.is_admin], as a truth value. *)
Definition is_admin (a : Auth) : bool :=
  match get_current_user a with
  | Some u => String.eqb (role u) "admin"
  | None => false
  end.

(** [AuthManager.can_delete] *)
Definition can_delete (a : Auth) : bool := is_admin a.

(** [AuthManager.can_import] *)
Definition can_import (a : Auth) : bool := is_logged_in a.

(** [AuthManager.can_view_stats] *)
Definition can_view_stats (a : Auth) : bool := is_admin a.

(** [AuthManager.add_user] *)
Definition add_user (name password the_role : string) (a : Auth) : bool * Auth :=
  if negb (is_admin a) then (false, a)
  else
    match users a !! name with
    | Some _ => (false, a)
    | None =>
        (true,
         save_users
           (mk_auth (<[name := new_user name password the_role]> (users a))
              (current_user a) (users_file a)))
    end.

(** [users[name].password_hash = users[name]._hash_password(new_password)] *)
Definition set_password (name new_password : string) (a : Auth) : Auth :=
  mk_auth
    (alter (fun u => mk_user (username u) (sha256 new_password) (role u)) name (users a))
    (current_user a) (users_file a).

(** [AuthManager.change_password] *)
Definition change_password (name current_password new_password : string) (a : Auth)
    : bool * Auth :=
  match get_current_user a with
  | None => (false, a)
  | Some current =>
      if String.eqb (username current) name then
        match users a !! name with
        | Some user =>
            if verify_password user current_password
            then (true, save_users (set_password name new_password a))
            else (false, a)
        | None => (false, a)
        end
      else (false, a)
  end.

(** [AuthManager.change_user_password] *)
Definition change_user_password (name new_password : string) (a : Auth) : bool * Auth :=
  if negb (is_admin a) then (false, a)
  else
    match users a !! name with
    | Some _ => (true, save_users (set_password name new_password a))
    | None => (false, a)
    end.

End WithHash.

(** * Vocabulary of the properties *)



Definition status_ok (s : string) : Prop := s = "Pending" \/ s = "Completed".

Definition archived : Edits := mk_edits None None None None (Some "Archived").

(** The integer in the counter file, when there is a file and it reads
    as one. *)
Definition persisted_counter (st : State) : option Z :=
  match counter_file st with
  | Some text => PyStr.int (PyStr.strip text)
  | None => None
  end.

(** The ids in the record file. *)
Definition persisted_ids (st : State) : list string :=
  match data_file st with
  | Stored data => map s_id data
  | _ => []
  end.

(** The counter file covers the record file: it holds an integer, and
    no id in the record file has a larger number. *)
Definition counter_covers (st : State) : Prop :=
  exists c, persisted_counter st = Some c /\
            forall i n, In i (persisted_ids st) -> id_number i = Some n -> n <= c.

(** The largest number among the ids, as a relation: some id carries
    it, no id carries more. *)
Definition max_suffix (ids : list string) (S : Z) : Prop :=
  (exists i, In i ids /\ id_number i = Some S) /\
  (forall i n, In i ids -> id_number i = Some n -> n <= S).

(** The step of the loop in [max_counter_of]. *)
Definition scan (max_counter : Z) (r : DocumentRecord) : Z :=
  match id_number (id r) with
  | Some number => Z.max max_counter number
  | None => max_counter
  end.

(** What becomes of a row: a record with these fields, nothing, or an
    exception. *)
Inductive RowKind : Type :=
| Valid (the_sender the_subject the_destination : string) (the_date : option string)
| PassedOver
| Raising.

(** A row read cell by cell in the order of the loop body. A row is
    passed over when its sender, subject and destination cells can be
    read and the sender or the subject is empty; it raises when a cell
    that is read cannot be read. *)
Definition classify (pandas : option (string -> option DateTime.datetime))
    (cols : list string) (nc : gmap string string) (dest : option string)
    (row : list cell) : RowKind :=
  match field cols row (nc !! "sender"), field cols row (nc !! "subject"),
        field cols row dest with
  | Some s, Some t, Some d =>
      if bool_decide (s = EmptyString \/ t = EmptyString) then PassedOver
      else
        match field cols row (nc !! "date") with
        | Some raw =>
            Valid s t d (if PyStr.truthy raw then _parse_and_format_date pandas raw else None)
        | None => Raising
        end
  | _, _, _ => Raising
  end.

(** The record the loop builds for a valid row when the counter stands
    at [n]. *)
Definition imported_record (n : Z) (s t d : string) (dt : option string) : DocumentRecord :=
  mk_record ("MAYOR'S OFFICE - " +:+ PyStr.format_03d (n + 1))
    (if opt_truthy dt then default EmptyString dt else "No Date") s t d "Pending".

(** The records a list of rows yields, counter at [n] before the first
    row. *)
Fixpoint imported (pandas : option (string -> option DateTime.datetime))
    (cols : list string) (nc : gmap string string) (dest : option string)
    (n : Z) (rs : list (list cell)) : list DocumentRecord :=
  match rs with
  | [] => []
  | row :: rs' =>
      match classify pandas cols nc dest row with
      | Valid s t d dt => imported_record n s t d dt :: imported pandas cols nc dest (n + 1) rs'
      | _ => imported pandas cols nc dest n rs'
      end
  end.

Definition is_valid (k : RowKind) : bool :=
  match k with Valid _ _ _ _ => true | _ => false end.

Definition is_raising (k : RowKind) : bool :=
  match k with Raising => true | _ => false end.

(** The destination column the import settles on. *)
Definition destination_col_of (df : DataFrame) : option string :=
  match normalize_columns (columns df) !! "destination" with
  | Some col => Some col
  | None => normalize_columns (columns df) !! "to"
  end.

(** How the import of [df] treats a row. *)
Definition row_kind (pandas : option (string -> option DateTime.datetime))
    (df : DataFrame) : list cell -> RowKind :=
  classify pandas (columns df) (normalize_columns (columns df)) (destination_col_of df).

Definition valid_rows (pandas : option (string -> option DateTime.datetime))
    (df : DataFrame) : list (list cell) :=
  filter (fun row => is_valid (row_kind pandas df row) = true) (rows df).

Definition raising_rows (pandas : option (string -> option DateTime.datetime))
    (df : DataFrame) : list (list cell) :=
  filter (fun row => is_raising (row_kind pandas df row) = true) (rows df).

Definition has_required_columns (df : DataFrame) : Prop :=
  is_Some (normalize_columns (columns df) !! "sender") /\
  is_Some (normalize_columns (columns df) !! "subject").

Fixpoint all_chars (p : ascii -> bool) (s : string) : bool :=
  match s with
  | EmptyString => true
  | String c s' => p c && all_chars p s'
  end.



(** ** Sample inputs *)

(** A [pandas] whose [to_datetime] parses nothing. *)
Definition no_pandas_parse : option (string -> option DateTime.datetime) :=
  Some (fun _ => None).

Definition one_row : DataFrame := mk_frame ["sender"; "subject"] [[Val "B"; Val "Report"]].

Definition one_entry : Backup :=
  mk_backup true (Some [Entry (Some "B") (Some "Report") (Some "Ops") None None]).

Definition sparse_sheet : DataFrame :=
  mk_frame ["sender"; "subject"; "destination"]
    [ [Val "A"; Val "Invoice"; Val "Finance"];
      [Val "B"; Val EmptyString; Val "Ops"];
      [Val "C"; Val "Memo"; Val "HR"] ].

Definition empty_sheet : DataFrame :=
  mk_frame ["sender"; "subject"] [ [Val EmptyString; Val "Invoice"]; [NA; NA] ].

(** A store with record 001 and both files in step. *)
Definition record_001 : DocumentRecord :=
  mk_record "MAYOR'S OFFICE - 001" "2025-01-07" "A" "Invoice" "Finance" "Pending".

Definition store_001 : State :=
  mk_state (Some 1) [record_001] (Stored [to_dict record_001]) (Some "1").

Definition record_002 : DocumentRecord :=
  mk_record "MAYOR'S OFFICE - 002" "No Date" "B" "Report" "Ops" "Pending".

Definition store_002 : State :=
  mk_state (Some 2) [record_001; record_002]
    (Stored [to_dict record_001; to_dict record_002]) (Some "2").


(** Two records without destination. *)
Definition store_no_destinations : State :=
  mk_state (Some 2)
    [ mk_record "MAYOR'S OFFICE - 001" "No Date" "A" "S" EmptyString "Pending";
      mk_record "MAYOR'S OFFICE - 002" "No Date" "B" "T" EmptyString "Completed" ]
    NoFile None.

(** A record file with suffix 005 only. *)
Definition data_005 : list StoredRecord :=
  [mk_stored "MAYOR'S OFFICE - 005" "2025-01-01" "A" "Invoice" "Finance" (Some "Pending")].

(** A record file with suffix 057 only. *)
Definition data_057 : list StoredRecord :=
  [mk_stored "MAYOR'S OFFICE - 057" "2025-01-07" "A" "Invoice" "Finance" (Some "Pending")].

(** ** Vocabulary of the further properties *)

(** A record without its id. *)
Definition content (r : DocumentRecord) : string * string * string * string * string :=
  (date r, sender r, subject r, destination r, status r).

(** The id the allocator issues when the counter moves to [k]. *)
Definition issued_id (k : Z) : string := "MAYOR'S OFFICE - " +:+ PyStr.format_03d k.

(** The counter in memory bounds the numbers of the ids in memory. *)
Definition counter_bounds (st : State) : Prop :=
  exists n, _id_counter st = Some n /\
            forall r k, In r (records st) -> id_number (id r) = Some k -> k <= n.

(** What a caller passes to [add_record]. *)
Record AddRequest : Type := mk_request {
  q_sender : string;
  q_subject : string;
  q_destination : string;
  q_date : option string
}.

(** [add_record] called once per request, in order. *)
Fixpoint add_records (now : string) (reqs : list AddRequest) (st : State)
    : option (list DocumentRecord * State) :=
  match reqs with
  | [] => Some ([], st)
  | q :: reqs' =>
      match add_record now (q_sender q) (q_subject q) (q_destination q) (q_date q) st with
      | None => None
      | Some (r, st') =>
          match add_records now reqs' st' with
          | None => None
          | Some (rs, st'') => Some (r :: rs, st'')
          end
      end
  end.

(** A record as a load, an import or a restore leaves it: it has an id,
    a date, and a status of the two allowed. *)
Definition well_formed (r : DocumentRecord) : Prop :=
  id r <> EmptyString /\ date r <> EmptyString /\ status_ok (status r).

(** The characters [format_03d] writes: digits and the sign. *)
Definition sign_or_digit (c : ascii) : bool := PyStr.is_digit c || Ascii.eqb c "-".

Definition not_blank (c : ascii) : bool := negb (Ascii.eqb c " ").

(** The variables of a bulk-load loop keep the counter at or above [n0]
    and above the number of every id collected so far. *)
Definition loop_bounds (n0 : Z) (l : Loop) : Prop :=
  exists n, l_counter l = Some n /\ n0 <= n /\
            forall r k, In r (l_records l) -> id_number (id r) = Some k -> k <= n.

(** The records with fresh ids from [n + 1] on and everything else
    kept. *)
Fixpoint renumbered (n : Z) (rs : list DocumentRecord) : list DocumentRecord :=
  match rs with
  | [] => []
  | r :: rs' =>
      mk_record (issued_id (n + 1)) (date r) (sender r) (subject r) (destination r) (status r)
      :: renumbered (n + 1) rs'
  end.

(** A record a backup can carry over: sender, subject and date are not
    empty and the status is one of the two allowed. *)
Definition restorable (r : DocumentRecord) : Prop :=
  sender r <> EmptyString /\ subject r <> EmptyString /\ date r <> EmptyString /\
  status_ok (status r).

(** The test of the loop of [get_records_by_date_range]. *)
Definition in_range (start_date end_date : string) (r : DocumentRecord) : bool :=
  str_le start_date (date_part (date r)) && str_le (date_part (date r)) end_date.

(** The prefix of the ids of the old format. *)
Definition legacy_prefix : string := "LGU_TNGLN-MAYOR'S OFFICE - ".

(** A store with a date-and-time record and a legacy id. *)
Definition store_legacy : State :=
  mk_state (Some 7)
    [mk_record "LGU_TNGLN-MAYOR'S OFFICE - 007" "2025-01-07 10:30:00" "A" "S" "D" "Pending";
     mk_record "MAYOR'S OFFICE - 003" "2025-02-01" "B" "T" "E" "Completed"]
    NoFile (Some "7").

(** * Properties *)

(** ** The primitives on sample inputs, as CPython evaluates them *)

Example strip_ex : PyStr.strip "  a b  " = "a b".
Proof. reflexivity. Qed.
Example split_ex : PyStr.split " - " "a - b - c" = ["a"; "b"; "c"].
Proof. reflexivity. Qed.
Example split_ex2 : PyStr.split " - " "a -  - 5" = ["a"; EmptyString; "5"].
Proof. reflexivity. Qed.
Example split_ex3 : PyStr.split " - " "a - - 5" = ["a"; "- 5"].
Proof. reflexivity. Qed.
Example int_ex : map PyStr.int ["007"; " 57 "; "-5"; "+5"; "5_7"; "_5"; "5__7"; "5_"; "- 5"; EmptyString; "+"; "0_0"]
  = [Some 7; Some 57; Some (-5); Some 5; Some 57; None; None; None; None; None; None; Some 0].
Proof. reflexivity. Qed.
Example fmt_ex : map PyStr.format_03d [0; 1; 58; 1234; -5] = ["000"; "001"; "058"; "1234"; "-05"].
Proof. reflexivity. Qed.
Example str_ex : map PyStr.str_int [0; 10; 1234; -5] = ["0"; "10"; "1234"; "-5"].
Proof. reflexivity. Qed.

Example re_ex1 : Regex.rmatch (Regex.seq [Regex.Grp Regex.d12; Regex.one_of "./"; Regex.Grp Regex.d12; Regex.one_of "./"; Regex.Grp Regex.d4; Regex.Eos]) "13/4/2025"
  = Some (["13"; "4"; "2025"], EmptyString).
Proof. reflexivity. Qed.
Example re_ex2 : Regex.rmatch (Regex.seq [Regex.Grp Regex.d12; Regex.Grp Regex.d12; Regex.Eos]) "134"
  = Some (["13"; "4"], EmptyString).
Proof. reflexivity. Qed.
Example re_ex3 : Regex.rmatch (Regex.seq [Regex.Grp Regex.d12; Regex.Grp Regex.d12; Regex.Eos]) "13"
  = Some (["1"; "3"], EmptyString).
Proof. reflexivity. Qed.

Example strp_ex : map (fun s => DateTime.strftime_datetime <$> DateTime.strptime s "%m/%d/%Y")
   ["13/40/2025"; "1/7/2025"; "00/7/2025"; "2/30/2024"; "2/29/2024"; "1/1/0000"; "1/1/0001"]
  = [None; Some "2025-01-07 00:00:00"; None; None; Some "2024-02-29 00:00:00"; None; Some "0001-01-01 00:00:00"].
Proof. vm_compute. reflexivity. Qed.
Example strp_ex2 : map (fun s => DateTime.strftime_datetime <$> DateTime.strptime s "%Y-%m-%d %H:%M:%S")
   ["2025-01-07   10:00:60"; "2025-01-07 24:00:00"; "2025-01-07 1:2:3"; "2025-1-7 23:59:59"]
  = [None; None; Some "2025-01-07 01:02:03"; Some "2025-01-07 23:59:59"].
Proof. vm_compute. reflexivity. Qed.
Example strp_ex3 : map (fun s => DateTime.strftime_datetime <$> DateTime.strptime s "%B %d, %Y")
   ["January 7, 2025"; "MAY 31, 1999"; "Foo 1, 2000"; "June 31, 2000"]
  = [Some "2025-01-07 00:00:00"; Some "1999-05-31 00:00:00"; None; None].
Proof. vm_compute. reflexivity. Qed.
Example strp_ex4 : map (fun s => DateTime.strftime_datetime <$> DateTime.strptime s "%I:%M %p")
   ["2:30 PM"; "12:00 AM"; "12:05 pm"; "13:00 PM"; "0:30 AM"]
  = [Some "1900-01-01 14:30:00"; Some "1900-01-01 00:00:00"; Some "1900-01-01 12:05:00"; None; None].
Proof. vm_compute. reflexivity. Qed.


(** ** Strings *)



(** ** Search *)






(** ** Statistics *)

Lemma get_statistics_unfold (st : State) :
  get_statistics st =
  mk_statistics (length (records st))
    (size (distinct_nonempty sender (records st)))
    (size (distinct_nonempty destination (records st)))
    (count_status "Pending" (records st)) (count_status "Completed" (records st))
    (elements (distinct_nonempty sender (records st)))
    (elements (distinct_nonempty destination (records st))).
Proof. unfold get_statistics. by destruct (records st). Qed.

Lemma truthy_nonempty (s : string) : PyStr.truthy s = true <-> s <> EmptyString.
Proof. destruct s; simpl; split; congruence. Qed.

Lemma elem_of_distinct_nonempty (f : DocumentRecord -> string) rs (x : string) :
  x ∈ distinct_nonempty f rs <-> x <> EmptyString /\ exists r, r ∈ rs /\ f r = x.
Proof.
  unfold distinct_nonempty.
  rewrite elem_of_list_to_set, list_elem_of_filter, truthy_nonempty.
  rewrite list_elem_of_In, in_map_iff.
  split; intros [Hx [r Hr]]; (split; [exact Hx|]); exists r;
    rewrite ?list_elem_of_In in *; tauto.
Qed.

Lemma distinct_nonempty_snoc_empty (f : DocumentRecord -> string) rs r :
  f r = EmptyString -> distinct_nonempty f (rs ++ [r]) = distinct_nonempty f rs.
Proof.
  intros Hr. apply set_eq. intros x. rewrite !elem_of_distinct_nonempty.
  split; intros [Hx [r' [Hin Hf]]]; (split; [exact Hx|]); exists r'; split; try exact Hf.
  - apply elem_of_app in Hin as [Hin|Hin]; [exact Hin|].
    apply list_elem_of_singleton in Hin. subst r'. congruence.
  - apply elem_of_app. by left.
Qed.

Lemma count_status_snoc (s : string) rs r :
  count_status s (rs ++ [r]) =
  (count_status s rs + (if decide (status r = s) then 1 else 0))%nat.
Proof.
  unfold count_status. rewrite filter_app, List.length_app. f_equal.
  rewrite filter_cons, filter_nil. by case_decide.
Qed.

(** C10. The distinct sets of [get_statistics] hold only non-empty
    values: a record with an empty destination (or sender) counts in
    [total_records] and in the status counts, and is left out of
    [unique_destinations] / [unique_senders] and of the two lists; when
    every record has an empty destination, [unique_destinations] is 0. *)
Theorem get_statistics_nonempty_values :
  (forall st,
     let s := get_statistics st in
     total_records s = length (records st) /\
     pending_count s = length (filter (fun r => status r = "Pending") (records st)) /\
     completed_count s = length (filter (fun r => status r = "Completed") (records st)) /\
     (forall x, x ∈ senders s <-> x <> EmptyString /\ exists r, r ∈ records st /\ sender r = x) /\
     (forall x, x ∈ destinations s <->
                x <> EmptyString /\ exists r, r ∈ records st /\ destination r = x) /\
     NoDup (senders s) /\ NoDup (destinations s) /\
     unique_senders s = length (senders s) /\
     unique_destinations s = length (destinations s)) /\
  (forall c rs df cf r,
     let s := get_statistics (mk_state c rs df cf) in
     let s' := get_statistics (mk_state c (rs ++ [r]) df cf) in
     total_records s' = S (total_records s) /\
     pending_count s' = (pending_count s + (if decide (status r = "Pending") then 1 else 0))%nat /\
     completed_count s' =
       (completed_count s + (if decide (status r = "Completed") then 1 else 0))%nat /\
     (destination r = EmptyString ->
        unique_destinations s' = unique_destinations s /\ destinations s' = destinations s) /\
     (sender r = EmptyString ->
        unique_senders s' = unique_senders s /\ senders s' = senders s)) /\
  (forall st,
     (forall r, r ∈ records st -> destination r = EmptyString) ->
     unique_destinations (get_statistics st) = 0%nat /\
     destinations (get_statistics st) = []).
Proof.
  split; [|split].
  - intros st s. subst s. rewrite get_statistics_unfold. simpl.
    split_and!; try reflexivity.
    + intros x. rewrite elem_of_elements. apply elem_of_distinct_nonempty.
    + intros x. rewrite elem_of_elements. apply elem_of_distinct_nonempty.
    + apply NoDup_elements.
    + apply NoDup_elements.
  - intros c rs df cf r s s'. subst s s'. rewrite !get_statistics_unfold. simpl.
    rewrite List.length_app, !count_status_snoc. simpl.
    split_and!; try lia; intros Hr; by rewrite distinct_nonempty_snoc_empty.
  - intros st Hall. rewrite get_statistics_unfold. simpl.
    assert (He : distinct_nonempty destination (records st) = ∅).
    { apply set_eq. intros x. rewrite elem_of_distinct_nonempty. split.
      - intros [Hx [r [Hin Hd]]]. rewrite (Hall r Hin) in Hd. congruence.
      - intros H. by apply not_elem_of_empty in H. }
    rewrite He. split; [apply size_empty | apply elements_empty].
Qed.

Lemma get_statistics_nonempty_values_witness :
  total_records (get_statistics store_no_destinations) = 2%nat /\
  unique_destinations (get_statistics store_no_destinations) = 0%nat /\
  destinations (get_statistics store_no_destinations) = [].
Proof.
  split; [reflexivity|].
  apply (proj2 (proj2 get_statistics_nonempty_values) store_no_destinations).
  intros r Hr. unfold store_no_destinations in Hr. simpl in Hr.
  apply elem_of_cons in Hr as [->|Hr]; [reflexivity|].
  apply list_elem_of_singleton in Hr. by subst r.
Defined.

(** ** Adding and deleting *)

Lemma add_record_loaded now sender0 subject0 destination0 date0 st n :
  _id_counter st = Some n ->
  let r := mk_record ("MAYOR'S OFFICE - " +:+ PyStr.format_03d (n + 1))
             (if opt_truthy date0 then default EmptyString date0 else now)
             sender0 subject0 destination0 "Pending" in
  add_record now sender0 subject0 destination0 date0 st =
  Some (r, mk_state (Some (n + 1)) (records st ++ [r])
             (Stored (map to_dict (records st ++ [r])))
             (Some (PyStr.str_int (n + 1)))).
Proof. intros Hc. unfold add_record, new_record. rewrite Hc. reflexivity. Qed.




Lemma delete_first_head (r : DocumentRecord) rs : delete_first (id r) (r :: rs) = Some rs.
Proof. simpl. by rewrite String.eqb_refl. Qed.

(** C7. Deleting the only record of a store empties the collection and
    resets the counter (in memory and in the counter file), so that the
    next [add_record] issues the id with suffix 001; a deletion after
    which records remain leaves the counter and its file as they
    were. *)
Theorem delete_last_record_resets_counter :
  (forall now c r df cf sender0 subject0 destination0 date0,
     exists st1 r' st2,
       delete_record (id r) (mk_state c [r] df cf) = (true, st1) /\
       records st1 = [] /\ _id_counter st1 = Some 0 /\ counter_file st1 = Some "0" /\
       add_record now sender0 subject0 destination0 date0 st1 = Some (r', st2) /\
       id r' = "MAYOR'S OFFICE - 001" /\ records st2 = [r']) /\
  (forall record_id st,
     records (snd (delete_record record_id st)) <> [] ->
     _id_counter (snd (delete_record record_id st)) = _id_counter st /\
     counter_file (snd (delete_record record_id st)) = counter_file st).
Proof.
  split.
  - intros now c r df cf sender0 subject0 destination0 date0.
    unfold delete_record. simpl records. rewrite delete_first_head. simpl.
    eexists _, _, _. split; [reflexivity|]. simpl.
    split_and!; try reflexivity.
  - intros record_id st. unfold delete_record.
    destruct (delete_first record_id (records st)) as [rs|]; simpl; [|done].
    destruct rs; simpl; [congruence | done].
Qed.

Lemma delete_last_record_resets_counter_witness :
  records (snd (delete_record "MAYOR'S OFFICE - 001" store_002)) = [record_002] /\
  _id_counter (snd (delete_record "MAYOR'S OFFICE - 001" store_002)) = Some 2 /\
  counter_file (snd (delete_record "MAYOR'S OFFICE - 001" store_002)) = Some "2".
Proof.
  split; [reflexivity|].
  apply (proj2 delete_last_record_resets_counter "MAYOR'S OFFICE - 001" store_002).
  discriminate.
Defined.

(** ** Status *)

(** The constructor normalises the status it is given. *)
Lemma new_record_status now sender0 subject0 destination0 date0 rid auto status0 c r c' :
  new_record now sender0 subject0 destination0 date0 rid auto status0 c = Some (r, c') ->
  status_ok (status r) /\
  (status0 = "Done" -> status r = "Completed") /\
  (status0 <> "Done" -> status0 <> "Completed" -> status r = "Pending").
Proof.
  unfold new_record.
  destruct (if opt_truthy rid then _ else _) as [[i ci]|]; [|discriminate].
  intros [= <- <-]. simpl. unfold status_ok.
  destruct (String.eqb_spec status0 "Done") as [->|Hd]; simpl.
  - split_and!; [tauto | done | done].
  - destruct (String.eqb_spec status0 "Completed") as [->|Hc]; simpl.
    + split_and!; [tauto | done | done].
    + split_and!; [tauto | done | done].
Qed.

(** C2, the failing input. [edit_record] stores the status it is given:
    editing record 001 to status "Archived" leaves "Archived" in the
    collection and in the record file, a value outside
    {Pending, Completed}. *)
Theorem edit_record_stores_any_status :
  exists r',
    edit_record "MAYOR'S OFFICE - 001" archived store_001
    = (true, mk_state (Some 1) [r'] (Stored [to_dict r']) (Some "1")) /\
    status r' = "Archived" /\ s_status (to_dict r') = Some "Archived" /\
    ~ status_ok (status r').
Proof.
  eexists. split; [reflexivity|]. split_and!; try reflexivity.
  unfold status_ok. simpl. intros [H|H]; discriminate.
Qed.

(** ** The counter file *)

(** C1, the failing input. A store holding record 001 with the counter
    file at 1 satisfies the invariant; an additive import of one valid
    row, and likewise an additive restore of one valid entry, writes
    record 002 to the record file and returns success, and leaves the
    counter file at 1. *)
Theorem bulk_load_leaves_counter_file_behind :
  counter_covers store_001 /\
  (fst (import_from_excel no_pandas_parse (Some one_row) false store_001) = true /\
   persisted_ids (snd (import_from_excel no_pandas_parse (Some one_row) false store_001))
     = ["MAYOR'S OFFICE - 001"; "MAYOR'S OFFICE - 002"] /\
   _id_counter (snd (import_from_excel no_pandas_parse (Some one_row) false store_001))
     = Some 2 /\
   counter_file (snd (import_from_excel no_pandas_parse (Some one_row) false store_001))
     = Some "1" /\
   ~ counter_covers (snd (import_from_excel no_pandas_parse (Some one_row) false store_001))) /\
  (fst (restore_from_backup (Some one_entry) false store_001) = true /\
   persisted_ids (snd (restore_from_backup (Some one_entry) false store_001))
     = ["MAYOR'S OFFICE - 001"; "MAYOR'S OFFICE - 002"] /\
   _id_counter (snd (restore_from_backup (Some one_entry) false store_001)) = Some 2 /\
   counter_file (snd (restore_from_backup (Some one_entry) false store_001)) = Some "1" /\
   ~ counter_covers (snd (restore_from_backup (Some one_entry) false store_001))).
Proof.
  split_and!; try reflexivity.
  - exists 1. split; [reflexivity|]. intros i n [<-|[]] H. vm_compute in H.
    injection H as <-. lia.
  - intros [c [Hc Hle]]. vm_compute in Hc. injection Hc as <-.
    specialize (Hle "MAYOR'S OFFICE - 002" 2).
    assert (2 <= 1); [|lia]. apply Hle; [vm_compute; tauto | reflexivity].
  - intros [c [Hc Hle]]. vm_compute in Hc. injection Hc as <-.
    specialize (Hle "MAYOR'S OFFICE - 002" 2).
    assert (2 <= 1); [|lia]. apply Hle; [vm_compute; tauto | reflexivity].
Qed.

(** The sibling path: [add_record] does write the counter file. *)
Lemma add_record_saves_counter now sender0 subject0 destination0 date0 st n r st' :
  _id_counter st = Some n ->
  add_record now sender0 subject0 destination0 date0 st = Some (r, st') ->
  counter_file st' = Some (PyStr.str_int (n + 1)) /\ _id_counter st' = Some (n + 1).
Proof.
  intros Hc. rewrite (add_record_loaded _ _ _ _ _ _ _ Hc). by intros [= <- <-].
Qed.

(** ** Tabular import: what the row loop does *)

Section ImportFacts.

Variable pandas : option (string -> option DateTime.datetime).
Variable cols : list string.
Variable nc : gmap string string.
Variable dest : option string.

Lemma import_row_classify (l : Loop) (row : list cell) (n : Z) :
  l_counter l = Some n ->
  import_row pandas cols nc dest l row =
  match classify pandas cols nc dest row with
  | Valid s t d dt => row_append (imported_record n s t d dt) (Some (n + 1)) l
  | PassedOver => l
  | Raising => row_error l
  end.
Proof.
  intros Hc. unfold import_row, classify.
  destruct (field cols row (nc !! "sender")) as [s|]; [|done].
  destruct (field cols row (nc !! "subject")) as [t|]; [|done].
  destruct (field cols row dest) as [d|]; [|done].
  destruct s as [|a s]; [done|]. destruct t as [|b t]; [by rewrite bool_decide_true by tauto|].
  rewrite bool_decide_false by (intros [?|?]; discriminate). simpl.
  destruct (field cols row (nc !! "date")) as [raw|]; [|done].
  unfold new_record. rewrite Hc. reflexivity.
Qed.





Lemma length_imported (n : Z) (rs : list (list cell)) :
  length (imported pandas cols nc dest n rs) =
  length (filter (fun row => is_valid (classify pandas cols nc dest row) = true) rs).
Proof.
  revert n. induction rs as [|row rs IH]; intros n; [done|].
  simpl. destruct (classify pandas cols nc dest row) eqn:E.
  - rewrite filter_cons_True by (by rewrite E). simpl. by rewrite IH.
  - rewrite filter_cons_False by (rewrite E; discriminate). apply IH.
  - rewrite filter_cons_False by (rewrite E; discriminate). apply IH.
Qed.

Lemma import_fold (rs : list (list cell)) (l : Loop) (n : Z) :
  l_counter l = Some n ->
  fold_left (import_row pandas cols nc dest) rs l =
  mk_loop (l_records l ++ imported pandas cols nc dest n rs)
    (Some (n + Z.of_nat (length (imported pandas cols nc dest n rs))))
    (imported_count l + length (imported pandas cols nc dest n rs))
    (error_count l +
     length (filter (fun row => is_raising (classify pandas cols nc dest row) = true) rs)).
Proof.
  revert l n. induction rs as [|row rs IH]; intros l n Hc.
  - simpl. rewrite app_nil_r, Z.add_0_r, !Nat.add_0_r, <- Hc. by destruct l.
  - simpl fold_left. rewrite (import_row_classify l row n Hc). simpl imported.
    destruct (classify pandas cols nc dest row) as [s t d dt| |] eqn:E.
    + rewrite filter_cons_False by (rewrite E; discriminate).
      rewrite (IH _ (n + 1)) by done. simpl. rewrite <- app_assoc. simpl.
      f_equal; [f_equal|]; lia.
    + rewrite filter_cons_False by (rewrite E; discriminate).
      by rewrite (IH _ n).
    + rewrite filter_cons_True by (by rewrite E).
      rewrite (IH _ n) by done. simpl. f_equal. lia.
Qed.

Lemma import_row_grows (l : Loop) (row : list cell) :
  exists new,
    l_records (import_row pandas cols nc dest l row) = l_records l ++ new /\
    imported_count (import_row pandas cols nc dest l row) = (imported_count l + length new)%nat /\
    (new = [] -> l_counter (import_row pandas cols nc dest l row) = l_counter l).
Proof.
  assert (Hsame : forall l' : Loop,
            l_records l' = l_records l -> imported_count l' = imported_count l ->
            l_counter l' = l_counter l ->
            exists new,
              l_records l' = l_records l ++ new /\
              imported_count l' = (imported_count l + length new)%nat /\
              (new = [] -> l_counter l' = l_counter l)).
  { intros l' Hr Hi Hc. exists []. rewrite app_nil_r. simpl. split_and!; [done|lia|done]. }
  unfold import_row.
  destruct (field cols row (nc !! "sender")) as [s|]; [|by apply Hsame].
  destruct (field cols row (nc !! "subject")) as [t|]; [|by apply Hsame].
  destruct (field cols row dest) as [d|]; [|by apply Hsame].
  destruct (negb (PyStr.truthy s) || negb (PyStr.truthy t)); [by apply Hsame|].
  destruct (field cols row (nc !! "date")) as [raw|]; [|by apply Hsame].
  destruct (new_record _ _ _ _ _ _ _ _ _) as [[r c]|]; [|by apply Hsame].
  exists [r]. simpl. split_and!; [done|lia|discriminate].
Qed.

Lemma import_fold_grows (rs : list (list cell)) (l : Loop) :
  exists new,
    l_records (fold_left (import_row pandas cols nc dest) rs l) = l_records l ++ new /\
    imported_count (fold_left (import_row pandas cols nc dest) rs l)
      = (imported_count l + length new)%nat /\
    (new = [] -> l_counter (fold_left (import_row pandas cols nc dest) rs l) = l_counter l).
Proof.
  revert l. induction rs as [|row rs IH]; intros l.
  - exists []. simpl. rewrite app_nil_r. split_and!; [done|lia|done].
  - simpl. destruct (import_row_grows l row) as (new1 & Hr1 & Hi1 & Hc1).
    destruct (IH (import_row pandas cols nc dest l row)) as (new2 & Hr2 & Hi2 & Hc2).
    exists (new1 ++ new2). rewrite Hr2, Hr1, Hi2, Hi1, List.length_app, <- app_assoc.
    split_and!; [done|lia|].
    intros [-> ->]%app_eq_nil. by rewrite Hc2, Hc1.
Qed.

End ImportFacts.

Lemma import_rows_loaded pandas df st n :
  _id_counter st = Some n ->
  let new := imported pandas (columns df) (normalize_columns (columns df))
               (destination_col_of df) n (rows df) in
  import_rows pandas df st =
  mk_loop (records st ++ new) (Some (n + Z.of_nat (length new))) (length new)
    (length (raising_rows pandas df)) /\
  length new = length (valid_rows pandas df).
Proof.
  intros Hc new. split; [|apply length_imported].
  unfold import_rows. fold (destination_col_of df).
  by rewrite (import_fold _ _ _ _ _ _ n).
Qed.

(** C5. An additive import either fails and leaves the state, the
    collection included, exactly as it was before the call, or succeeds
    and keeps the old records followed by at least one new record,
    written to the record file.  For an import that reaches the row loop
    (pandas present, file read, both required columns present, counter
    loaded) the first happens when no row is valid and the second when
    at least one row is valid, with one new record per valid row. *)
Theorem additive_import_all_or_kept :
  (forall pandas file st,
     (fst (import_from_excel pandas file false st) = false ->
      snd (import_from_excel pandas file false st) = st) /\
     (fst (import_from_excel pandas file false st) = true ->
      exists new,
        new <> [] /\
        records (snd (import_from_excel pandas file false st)) = records st ++ new /\
        data_file (snd (import_from_excel pandas file false st))
          = Stored (map to_dict (records st ++ new)))) /\
  (forall pandas df st n,
     PANDAS_AVAILABLE pandas = true ->
     has_required_columns df ->
     _id_counter st = Some n ->
     (valid_rows pandas df = [] ->
        import_from_excel pandas (Some df) false st = (false, st)) /\
     (valid_rows pandas df <> [] ->
        exists new,
          length new = length (valid_rows pandas df) /\
          import_from_excel pandas (Some df) false st =
          (true, mk_state (Some (n + Z.of_nat (length new))) (records st ++ new)
                   (Stored (map to_dict (records st ++ new))) (counter_file st)))).
Proof.
  split.
  - intros pandas file st. unfold import_from_excel.
    destruct (negb (PANDAS_AVAILABLE pandas)); [by split|].
    destruct file as [df|]; [|by split].
    destruct (filter _ _) as [|? ?]; [|by split].
    unfold import_rows, begin_load.
    destruct (import_fold_grows pandas (columns df) (normalize_columns (columns df))
                (match normalize_columns (columns df) !! "destination" with
                 | Some col => Some col
                 | None => normalize_columns (columns df) !! "to"
                 end)
                (rows df) (mk_loop (records st) (_id_counter st) 0 0))
      as (new & Hr & Hi & Hc).
    simpl in Hr, Hi, Hc. unfold end_load. rewrite Hi, Hr.
    destruct new as [|r new]; simpl.
    + split; [intros _|discriminate]. rewrite Hc by done. rewrite app_nil_r. by destruct st.
    + split; [discriminate|intros _]. exists (r :: new). by split_and!.
  - intros pandas df st n Hp [[cs Hs] [ct Ht]] Hc.
    destruct (import_rows_loaded pandas df st n Hc) as [Hloop Hlen].
    set (new := imported pandas (columns df) (normalize_columns (columns df))
                  (destination_col_of df) n (rows df)) in *.
    assert (Hrun : import_from_excel pandas (Some df) false st =
                   end_load false (records st) st (import_rows pandas df st)).
    { unfold import_from_excel. rewrite Hp. simpl negb. cbv iota.
      rewrite !filter_cons, filter_nil.
      repeat case_decide; try congruence. reflexivity. }
    rewrite Hrun, Hloop. unfold end_load. simpl. split.
    + intros Hnone. rewrite Hnone in Hlen. simpl in Hlen.
      destruct new; [|discriminate]. simpl.
      unfold set_records, set_counter. simpl. rewrite Z.add_0_r, <- Hc. by destruct st.
    + intros Hsome. exists new. split; [exact Hlen|].
      destruct new as [|r new']; [simpl in Hlen; by destruct (valid_rows pandas df)|].
      reflexivity.
Qed.

Lemma additive_import_all_or_kept_witness :
  import_from_excel no_pandas_parse (Some empty_sheet) false store_001 = (false, store_001) /\
  snd (import_from_excel None (Some sparse_sheet) false store_001) = store_001 /\
  exists new, length new = 2%nat /\
    fst (import_from_excel no_pandas_parse (Some sparse_sheet) false store_001) = true /\
    records (snd (import_from_excel no_pandas_parse (Some sparse_sheet) false store_001))
      = record_001 :: new.
Proof.
  destruct additive_import_all_or_kept as [Hany Hrows].
  split_and!.
  - refine (proj1 (Hrows no_pandas_parse empty_sheet store_001 1 _ _ _) _); try reflexivity.
    split; vm_compute; eauto.
  - apply (proj1 (Hany None (Some sparse_sheet) store_001)). reflexivity.
  - assert (Hreq : has_required_columns sparse_sheet) by (split; vm_compute; eauto).
    destruct (proj2 (Hrows no_pandas_parse sparse_sheet store_001 1 eq_refl Hreq eq_refl))
      as (new & Hlen & Hrun).
    { vm_compute. discriminate. }
    exists new. rewrite Hrun. split_and!; [exact Hlen | reflexivity | reflexivity].
Defined.



(** ** Date normalizer *)



Lemma rstrip_by_id (sp : ascii -> bool) (s : string) :
  all_chars (fun c => negb (sp c)) s = true -> PyStr.rstrip_by sp s = s.
Proof.
  induction s as [|c s IH]; [done|]. simpl. intros [Hc Hs]%andb_true_iff.
  rewrite (IH Hs). apply negb_true_iff in Hc. rewrite Hc. by destruct s.
Qed.

Lemma strip_by_id (sp : ascii -> bool) (s : string) :
  all_chars (fun c => negb (sp c)) s = true -> PyStr.strip_by sp s = s.
Proof.
  intros H. unfold PyStr.strip_by.
  assert (Hl : PyStr.lstrip_by sp s = s).
  { destruct s as [|c s]; [done|]. simpl in *. apply andb_true_iff in H as [Hc _].
    apply negb_true_iff in Hc. by rewrite Hc. }
  rewrite Hl. by apply rstrip_by_id.
Qed.








(** ** Integers as text: reading back what was written *)

Lemma digit_char_digit (k : Z) :
  0 <= k < 10 ->
  PyStr.is_digit (PyStr.digit_char k) = true /\ PyStr.digit_val (PyStr.digit_char k) = k.
Proof.
  intros H.
  assert (Hk : k = 0 \/ k = 1 \/ k = 2 \/ k = 3 \/ k = 4 \/ k = 5 \/ k = 6 \/ k = 7 \/
               k = 8 \/ k = 9) by lia.
  destruct Hk as [->|[->|[->|[->|[->|[->|[->|[->|[->| ->]]]]]]]]]; by vm_compute.
Qed.

Lemma int_digits_fuel (f : nat) (n : Z) (acc : string) (p : bool) :
  0 <= n < Z.of_nat f ->
  PyStr.int_digits (PyStr.digits_fuel f n acc) 0 p = PyStr.int_digits acc n true.
Proof.
  revert n acc p. induction f as [|f IH]; intros n acc p Hn; [lia|].
  assert (Hm : 0 <= n mod 10 < 10) by (apply Z.mod_pos_bound; lia).
  destruct (digit_char_digit (n mod 10) Hm) as [Hd Hv].
  simpl PyStr.digits_fuel. destruct (n <? 10) eqn:E.
  - apply Z.ltb_lt in E. simpl. rewrite Hd, Hv. f_equal. rewrite Z.mod_small; lia.
  - apply Z.ltb_ge in E. rewrite IH.
    + simpl. rewrite Hd, Hv. f_equal. pose proof (Z.div_mod n 10). lia.
    + split; [apply Z.div_pos; lia|].
      assert (n / 10 < n) by (apply Z.div_lt; lia). lia.
Qed.

Lemma int_digits_digits (n : Z) (p : bool) :
  0 <= n -> PyStr.int_digits (PyStr.digits n) 0 p = Some n.
Proof.
  intros Hn. unfold PyStr.digits. rewrite int_digits_fuel; [done|]. lia.
Qed.

Lemma int_digits_zeros (k : nat) (s : string) :
  PyStr.int_digits (PyStr.zeros k +:+ s) 0 true = PyStr.int_digits s 0 true.
Proof. induction k as [|k IH]; [done|]. simpl. exact IH. Qed.

Lemma all_digits_fuel (f : nat) (n : Z) (acc : string) :
  0 <= n -> all_chars PyStr.is_digit acc = true ->
  all_chars PyStr.is_digit (PyStr.digits_fuel f n acc) = true.
Proof.
  revert n acc. induction f as [|f IH]; intros n acc Hn Hacc; [done|].
  assert (Hm : 0 <= n mod 10 < 10) by (apply Z.mod_pos_bound; lia).
  destruct (digit_char_digit (n mod 10) Hm) as [Hd _].
  simpl PyStr.digits_fuel. destruct (n <? 10).
  - simpl. by rewrite Hd, Hacc.
  - apply IH; [apply Z.div_pos; lia|]. simpl. by rewrite Hd, Hacc.
Qed.

Lemma all_digits_digits (n : Z) : 0 <= n -> all_chars PyStr.is_digit (PyStr.digits n) = true.
Proof. intros Hn. by apply all_digits_fuel. Qed.

Lemma all_chars_app (p : ascii -> bool) (s t : string) :
  all_chars p (s +:+ t) = all_chars p s && all_chars p t.
Proof. induction s as [|c s IH]; [done|]. simpl. by rewrite IH, andb_assoc. Qed.

Lemma all_chars_weaken (p q : ascii -> bool) (s : string) :
  (forall c, p c = true -> q c = true) -> all_chars p s = true -> all_chars q s = true.
Proof.
  intros Hpq. induction s as [|c s IH]; [done|]. simpl.
  intros [Hc Hs]%andb_true_iff. by rewrite (Hpq c Hc), IH.
Qed.

Lemma all_digits_zeros (k : nat) : all_chars PyStr.is_digit (PyStr.zeros k) = true.
Proof. induction k; [done|]. exact IHk. Qed.

(** A digit is not a space, a sign or the blank of the separator. *)
Lemma digit_plain (c : ascii) :
  PyStr.is_digit c = true ->
  PyStr.is_space c = false /\ PyStr.is_int_space c = false /\
  c <> "-"%char /\ c <> "+"%char /\ c <> " "%char.
Proof. destruct c as [[] [] [] [] [] [] [] []]; vm_compute; intros H; split_and!; congruence. Qed.

Lemma int_unsigned (s : string) :
  all_chars PyStr.is_digit s = true -> PyStr.int s = PyStr.int_digits s 0 false.
Proof.
  intros H. unfold PyStr.int. rewrite strip_by_id.
  - destruct s as [|c s]; [done|]. simpl in H. apply andb_true_iff in H as [Hc _].
    destruct (digit_plain c Hc) as (_ & _ & Hm & Hp & _).
    destruct c as [[] [] [] [] [] [] [] []]; try done.
  - revert H. apply all_chars_weaken. intros c Hc.
    destruct (digit_plain c Hc) as (_ & -> & _). done.
Qed.

Lemma int_str_int (n : Z) : PyStr.int (PyStr.str_int n) = Some n.
Proof.
  unfold PyStr.str_int. destruct (n <? 0) eqn:E.
  - apply Z.ltb_lt in E. unfold PyStr.int. rewrite strip_by_id.
    + rewrite int_digits_digits by lia. simpl. f_equal. lia.
    + simpl. revert n E. intros n E.
      apply (all_chars_weaken PyStr.is_digit); [|apply all_digits_digits; lia].
      intros c Hc. destruct (digit_plain c Hc) as (_ & -> & _). done.
  - apply Z.ltb_ge in E. rewrite int_unsigned by (by apply all_digits_digits).
    by apply int_digits_digits.
Qed.

Lemma strip_str_int (n : Z) : PyStr.strip (PyStr.str_int n) = PyStr.str_int n.
Proof.
  apply strip_by_id. unfold PyStr.str_int.
  assert (H : forall m, 0 <= m ->
            all_chars (fun c => negb (PyStr.is_space c)) (PyStr.digits m) = true).
  { intros m Hm. apply (all_chars_weaken PyStr.is_digit); [|by apply all_digits_digits].
    intros c Hc. destruct (digit_plain c Hc) as (-> & _). done. }
  destruct (n <? 0) eqn:E.
  - apply Z.ltb_lt in E. simpl. apply H. lia.
  - apply Z.ltb_ge in E. by apply H.
Qed.

Lemma int_format_03d (n : Z) : 0 <= n -> PyStr.int (PyStr.format_03d n) = Some n.
Proof.
  intros Hn. unfold PyStr.format_03d.
  assert (E : (n <? 0) = false) by (apply Z.ltb_ge; lia). rewrite E.
  rewrite int_unsigned.
  - set (k := (3 - String.length (PyStr.digits n))%nat). clearbody k.
    destruct k as [|k]; [by apply int_digits_digits|].
    simpl. rewrite int_digits_zeros. by apply int_digits_digits.
  - by rewrite all_chars_app, all_digits_zeros, all_digits_digits.
Qed.

Lemma append_cons (c : ascii) (s t : string) : String c s +:+ t = String c (s +:+ t).
Proof. reflexivity. Qed.

Lemma append_empty_r (s : string) : s +:+ EmptyString = s.
Proof. induction s as [|c s IH]; [done|]. by rewrite append_cons, IH. Qed.

Lemma append_snoc (s t : string) (c : ascii) :
  (s +:+ String c EmptyString) +:+ t = s +:+ String c t.
Proof. induction s as [|a s IH]; [done|]. by rewrite !append_cons, IH. Qed.

Lemma split_aux_step (sep : string) (c : ascii) (s cur : string) :
  PyStr.split_aux sep (String c s) cur 0 =
  if String.prefix sep (String c s)
  then cur :: PyStr.split_aux sep s EmptyString (String.length sep - 1)
  else PyStr.split_aux sep s (cur +:+ String c EmptyString) 0.
Proof. reflexivity. Qed.

Lemma prefix_sep_digit (c : ascii) (s : string) :
  PyStr.is_digit c = true -> String.prefix " - " (String c s) = false.
Proof. destruct c as [[] [] [] [] [] [] [] []]; vm_compute; congruence. Qed.

Lemma split_plain (s cur : string) :
  all_chars PyStr.is_digit s = true -> PyStr.split_aux " - " s cur 0 = [cur +:+ s].
Proof.
  revert cur. induction s as [|c s IH]; intros cur H.
  - simpl. by rewrite append_empty_r.
  - simpl in H. apply andb_true_iff in H as [Hc Hs].
    rewrite split_aux_step, (prefix_sep_digit c s Hc), IH by done.
    by rewrite append_snoc.
Qed.

Lemma split_generated (t : string) :
  all_chars PyStr.is_digit t = true ->
  PyStr.split " - " ("MAYOR'S OFFICE - " +:+ t) = ["MAYOR'S OFFICE"; t].
Proof.
  intros Ht.
  assert (H : PyStr.split " - " ("MAYOR'S OFFICE - " +:+ t) =
              "MAYOR'S OFFICE" :: PyStr.split_aux " - " t EmptyString 0) by (destruct t; reflexivity).
  rewrite H. by rewrite split_plain.
Qed.

(** The number of a generated id is the counter it was generated
    from. *)
Lemma id_number_generated (n : Z) :
  0 <= n -> id_number ("MAYOR'S OFFICE - " +:+ PyStr.format_03d n) = Some n.
Proof.
  intros Hn. unfold id_number.
  assert (Hd : all_chars PyStr.is_digit (PyStr.format_03d n) = true).
  { unfold PyStr.format_03d. assert (E : (n <? 0) = false) by (apply Z.ltb_ge; lia).
    rewrite E. by rewrite all_chars_app, all_digits_zeros, all_digits_digits. }
  rewrite (split_generated _ Hd). by apply int_format_03d.
Qed.

(** ** Loading and reconciling the counter *)

Lemma from_dicts_ids now data c :
  (forall sr, In sr data -> s_id sr <> EmptyString) ->
  exists rs, from_dicts now data c = Some (rs, c) /\ map id rs = map s_id data.
Proof.
  induction data as [|sr data IH]; intros Hids.
  - by exists [].
  - destruct IH as (rs & Hrs & Hmap); [intros x Hx; apply Hids; simpl; tauto|].
    assert (Hsr : s_id sr <> EmptyString) by (apply Hids; simpl; tauto).
    simpl. unfold from_dict, new_record. simpl opt_truthy.
    destruct (s_id sr) as [|a i] eqn:E; [done|]. simpl PyStr.truthy. cbv iota.
    rewrite Hrs. eexists. split; [reflexivity|]. simpl. by rewrite Hmap.
Qed.

Lemma update_date_id pandas r : id (fst (update_date pandas r)) = id r.
Proof.
  unfold update_date.
  destruct (PyStr.truthy (date r) && negb (String.eqb (date r) "No Date")); [|done].
  destruct (_is_readable_format (date r)).
  - destruct (_convert_readable_to_iso (date r)) as [nd|]; [|done].
    by destruct (PyStr.truthy nd && negb (String.eqb nd (date r))).
  - destruct (_needs_date_format_update (date r)); [|done].
    destruct (_parse_and_format_date pandas (date r)) as [nd|]; [|done].
    by destruct (PyStr.truthy nd && negb (String.eqb nd (date r))).
Qed.

Lemma update_existing_dates_keeps pandas st :
  map id (records (_update_existing_dates_to_iso pandas st)) = map id (records st) /\
  _id_counter (_update_existing_dates_to_iso pandas st) = _id_counter st /\
  counter_file (_update_existing_dates_to_iso pandas st) = counter_file st.
Proof.
  unfold _update_existing_dates_to_iso.
  assert (Hids : map id (map fst (map (update_date pandas) (records st))) = map id (records st)).
  { induction (records st) as [|r rs IH]; [done|]. simpl. by rewrite update_date_id, IH. }
  destruct (0 <? _)%nat; simpl; by rewrite Hids.
Qed.

Lemma scan_fold rs a :
  a <= fold_left scan rs a /\
  (forall r n, In r rs -> id_number (id r) = Some n -> n <= fold_left scan rs a) /\
  (fold_left scan rs a = a \/
   exists r, In r rs /\ id_number (id r) = Some (fold_left scan rs a)).
Proof.
  revert a. induction rs as [|r rs IH]; intros a; simpl.
  - split_and!; [lia | tauto | tauto].
  - destruct (IH (scan a r)) as (Hle & Hall & Hex).
    assert (Ha : a <= scan a r) by (unfold scan; destruct (id_number (id r)); lia).
    split_and!.
    + lia.
    + intros r' n [Heq|Hin] Hn; [subst r'|exact (Hall r' n Hin Hn)].
      assert (n <= scan a r); [|lia]. unfold scan. rewrite Hn. lia.
    + destruct Hex as [Hm|(r' & Hin & Hn)].
      * assert (Hs : scan a r = a \/ id_number (id r) = Some (scan a r)).
        { unfold scan. destruct (id_number (id r)) as [k|]; [|by left].
          destruct (Z.max_spec a k) as [[_ Hk]|[_ Hk]]; rewrite Hk; [by right|by left]. }
        rewrite Hm. destruct Hs as [Hs|Hs]; [by left|].
        right. exists r. split; [by left|done].
      * right. exists r'. split; [by right|done].
Qed.

Lemma max_counter_of_max_suffix rs S :
  max_suffix (map id rs) S -> 0 <= S -> max_counter_of rs = S.
Proof.
  intros [(i & Hi & HiS) Hmax] HS.
  destruct (scan_fold rs 0) as (Hle & Hall & Hex).
  change (fold_left scan rs 0) with (max_counter_of rs) in *.
  apply in_map_iff in Hi as (r & <- & Hr).
  pose proof (Hall r S Hr HiS).
  destruct Hex as [Hm|(r' & Hin & Hn)]; [lia|].
  assert (max_counter_of rs <= S); [|lia].
  apply (Hmax (id r')); [by apply in_map|done].
Qed.

Lemma load_counter_saved st n :
  counter_file st = Some (PyStr.str_int n) -> _id_counter (_load_counter st) = Some n.
Proof.
  intros H. unfold _load_counter. rewrite H. simpl.
  by rewrite strip_str_int, int_str_int.
Qed.

(** In a process that has not loaded a counter yet, loading a record
    file whose largest id number is [S] leaves the counter at [S],
    whatever the counter file held, and the next record gets [S + 1]. *)
Lemma fresh_load_then_add pandas now data text S :
  max_suffix (map s_id data) S -> 0 <= S ->
  (forall sr, In sr data -> s_id sr <> EmptyString) ->
  let st := init pandas now None (Stored data) text in
  _id_counter st = Some S /\
  counter_file st = Some (PyStr.str_int S) /\
  forall sender0 subject0 destination0 date0,
    exists r st',
      add_record now sender0 subject0 destination0 date0 st = Some (r, st') /\
      id r = "MAYOR'S OFFICE - " +:+ PyStr.format_03d (S + 1) /\
      id_number (id r) = Some (S + 1).
Proof.
  intros Hmax HS Hids st.
  destruct (from_dicts_ids now data None Hids) as (rs & Hrs & Hmap).
  set (st1 := set_records rs (set_counter None (mk_state None [] (Stored data) text))).
  destruct (update_existing_dates_keeps pandas st1) as (Hi & Hc & Hf).
  set (st2 := _update_existing_dates_to_iso pandas st1) in *.
  assert (Hi' : map id (records st2) = map s_id data) by (rewrite Hi; exact Hmap).
  assert (Hne : records st2 <> []).
  { destruct Hmax as [(i & Hin & _) _]. rewrite <- Hi' in Hin.
    intros E. rewrite E in Hin. destruct Hin. }
  assert (Hm : max_counter_of (records st2) = S).
  { apply max_counter_of_max_suffix; [|done]. by rewrite Hi'. }
  assert (Hst : st = _load_counter (_initialize_counter_from_records st2)).
  { subst st. unfold init, load_records. simpl data_file. cbv iota.
    simpl _id_counter. by rewrite Hrs. }
  assert (Hinit : _initialize_counter_from_records st2 =
                  _save_counter (set_counter (Some S) st2)).
  { unfold _initialize_counter_from_records.
    rewrite Hm, Hc. by destruct (records st2). }
  assert (Hcount : _id_counter st = Some S).
  { rewrite Hst, Hinit. by apply load_counter_saved. }
  split; [exact Hcount|]. split.
  - rewrite Hst, Hinit. unfold _load_counter. simpl. done.
  - intros sender0 subject0 destination0 date0.
    eexists _, _. split; [by apply add_record_loaded|]. simpl.
    split; [done|]. apply id_number_generated. lia.
Qed.

(** The scenario of the specification: suffix 057 in the record file,
    003 in the counter file, a process that starts; the next id is
    058. *)
Example load_057_then_add pandas now :
  _id_counter (init pandas now None (Stored data_057) (Some "003")) = Some 57 /\
  exists st',
    add_record now "B" "Report" "Ops" None (init pandas now None (Stored data_057) (Some "003")) =
    Some (mk_record "MAYOR'S OFFICE - 058" now "B" "Report" "Ops" "Pending", st').
Proof. split; [reflexivity|]. eexists. reflexivity. Qed.

(** C4, the failing input. The record file holds suffix 005 and the
    counter file says 10 (records 006 to 010 were deleted).  A process
    that starts reconciles before it reads the counter file: the counter
    becomes 5, the counter file is overwritten with 5, and the next
    record is issued 006 again.  The counter went from 10 down to 5. *)
Theorem fresh_load_lowers_counter pandas now :
  PyStr.int (PyStr.strip "10") = Some 10 /\
  _id_counter (init pandas now None (Stored data_005) (Some "10")) = Some 5 /\
  counter_file (init pandas now None (Stored data_005) (Some "10")) = Some "5" /\
  exists st',
    add_record now "B" "Report" "Ops" None (init pandas now None (Stored data_005) (Some "10")) =
    Some (mk_record "MAYOR'S OFFICE - 006" now "B" "Report" "Ops" "Pending", st').
Proof. split_and!; try reflexivity. eexists. reflexivity. Qed.

(** Reconciling with a counter already in memory never lowers it. *)
Lemma initialize_counter_monotone st n :
  _id_counter st = Some n ->
  exists m, _id_counter (_initialize_counter_from_records st) = Some m /\ n <= m.
Proof.
  intros Hc. unfold _initialize_counter_from_records.
  destruct (records st) as [|r rs]; [exists n; split; [done|lia]|].
  rewrite Hc. destruct (n <? _) eqn:E; simpl.
  - eexists. split; [reflexivity|]. apply Z.ltb_lt in E. lia.
  - exists n. split; [done|lia].
Qed.

(** * Further properties *)

(** ** Editing, deleting, marking *)


Lemma edit_first_found rid kw pre r post :
  id r = rid -> (forall x, In x pre -> id x <> rid) ->
  edit_first rid kw (pre ++ r :: post) = Some (pre ++ apply_edits kw r :: post).
Proof.
  intros Hr. induction pre as [|x pre IH]; intros Hpre; simpl.
  - by rewrite <- Hr, String.eqb_refl.
  - destruct (String.eqb_spec (id x) rid) as [E|_]; [exfalso; by apply (Hpre x); [left|]|].
    rewrite IH; [done|]. intros y Hy. apply Hpre. by right.
Qed.

Lemma edit_first_ids rid kw rs rs' :
  edit_first rid kw rs = Some rs' -> map id rs' = map id rs.
Proof.
  revert rs'. induction rs as [|r rs IH]; intros rs'; [done|]. simpl.
  destruct (String.eqb (id r) rid).
  - by intros [= <-].
  - destruct (edit_first rid kw rs) as [rs0|]; [|done]. intros [= <-]. simpl.
    by rewrite (IH rs0).
Qed.

Lemma edit_record_found rid kw st pre r post :
  records st = pre ++ r :: post -> id r = rid ->
  (forall x, In x pre -> id x <> rid) ->
  edit_record rid kw st =
  (true, mk_state (_id_counter st) (pre ++ apply_edits kw r :: post)
           (Stored (map to_dict (pre ++ apply_edits kw r :: post))) (counter_file st)).
Proof.
  intros Hrs Hr Hpre. unfold edit_record. by rewrite Hrs, edit_first_found.
Qed.



Lemma delete_first_none rid rs :
  (forall r, In r rs -> id r <> rid) -> delete_first rid rs = None.
Proof.
  induction rs as [|r rs IH]; intros H; [done|]. simpl.
  destruct (String.eqb_spec (id r) rid) as [E|_]; [exfalso; by apply (H r); [left|]|].
  rewrite IH; [done|]. intros x Hx. apply H. by right.
Qed.

Lemma delete_first_found rid pre r post :
  id r = rid -> (forall x, In x pre -> id x <> rid) ->
  delete_first rid (pre ++ r :: post) = Some (pre ++ post).
Proof.
  intros Hr. induction pre as [|x pre IH]; intros Hpre; simpl.
  - by rewrite <- Hr, String.eqb_refl.
  - destruct (String.eqb_spec (id x) rid) as [E|_]; [exfalso; by apply (Hpre x); [left|]|].
    rewrite IH; [done|]. intros y Hy. apply Hpre. by right.
Qed.

(** X2. [delete_record] with an id no record carries returns [False]
    and leaves the state, files included, as it was; otherwise it
    returns [True] and removes exactly the first record carrying the id,
    keeping every other record (later ones with the same id included) in
    order, and writes the record file. *)
Theorem delete_record_spec :
  (forall rid st,
     (forall r, In r (records st) -> id r <> rid) -> delete_record rid st = (false, st)) /\
  (forall rid st pre r post,
     records st = pre ++ r :: post -> id r = rid ->
     (forall x, In x pre -> id x <> rid) ->
     fst (delete_record rid st) = true /\
     records (snd (delete_record rid st)) = pre ++ post /\
     data_file (snd (delete_record rid st)) = Stored (map to_dict (pre ++ post))).
Proof.
  split.
  - intros rid st H. unfold delete_record. by rewrite delete_first_none.
  - intros rid st pre r post Hrs Hr Hpre. unfold delete_record.
    rewrite Hrs, delete_first_found by done. simpl.
    by destruct (pre ++ post).
Qed.

Lemma delete_record_spec_witness :
  delete_record "MAYOR'S OFFICE - 009" store_002 = (false, store_002) /\
  records (snd (delete_record "MAYOR'S OFFICE - 002" store_002)) = [record_001].
Proof.
  destruct delete_record_spec as (Hno & Hyes). split.
  - apply Hno. intros r [<-|[<-|[]]]; discriminate.
  - apply (Hyes "MAYOR'S OFFICE - 002" store_002 [record_001] record_002 []);
      [reflexivity | reflexivity |].
    intros x [<-|[]]. discriminate.
Defined.

(** X3. [mark_as_done] and [mark_as_pending] on an id some record
    carries set the status of the first such record to "Completed" and
    to "Pending" and change nothing else in it or in any other record;
    a store whose statuses are all among the two allowed keeps that
    property under both. *)
Theorem mark_record_spec :
  (forall rid st pre r post,
     records st = pre ++ r :: post -> id r = rid ->
     (forall x, In x pre -> id x <> rid) ->
     records (snd (mark_as_done rid st))
       = pre ++ mk_record (id r) (date r) (sender r) (subject r) (destination r) "Completed"
                :: post /\
     records (snd (mark_as_pending rid st))
       = pre ++ mk_record (id r) (date r) (sender r) (subject r) (destination r) "Pending"
                :: post /\
     fst (mark_as_done rid st) = true /\ fst (mark_as_pending rid st) = true) /\
  (forall rid st,
     (forall r, In r (records st) -> status_ok (status r)) ->
     (forall r, In r (records (snd (mark_as_done rid st))) -> status_ok (status r)) /\
     (forall r, In r (records (snd (mark_as_pending rid st))) -> status_ok (status r))).
Proof.
  split.
  - intros rid st pre r post Hrs Hr Hpre.
    unfold mark_as_done, mark_as_completed, mark_as_pending.
    rewrite !(edit_record_found rid _ st pre r post Hrs Hr Hpre). done.
  - assert (H : forall rid s st, status_ok s ->
              (forall r, In r (records st) -> status_ok (status r)) ->
              forall r, In r (records (snd (edit_record rid
                          (mk_edits None None None None (Some s)) st))) ->
                        status_ok (status r)).
    { intros rid s st Hs Hall. unfold edit_record.
      destruct (edit_first _ _ _) as [rs|] eqn:E; [|exact Hall]. simpl.
      revert rs E. induction (records st) as [|x l IH]; intros rs E; [done|].
      simpl in E. destruct (String.eqb (id x) rid).
      - injection E as <-. intros r [<-|Hr]; [exact Hs|]. apply Hall. by right.
      - destruct (edit_first rid _ l) as [rs0|] eqn:E0; [|done]. injection E as <-.
        intros r [<-|Hr]; [apply Hall; by left|].
        apply (IH (fun y Hy => Hall y (or_intror Hy)) rs0 eq_refl r Hr). }
    intros rid st Hall. split.
    + apply H; [by right|exact Hall].
    + apply H; [by left|exact Hall].
Qed.

Lemma mark_record_spec_witness :
  records (snd (mark_as_done "MAYOR'S OFFICE - 001" store_002))
    = [mk_record "MAYOR'S OFFICE - 001" "2025-01-07" "A" "Invoice" "Finance" "Completed";
       record_002].
Proof.
  apply (proj1 (proj1 mark_record_spec "MAYOR'S OFFICE - 001" store_002 [] record_001
                  [record_002] eq_refl eq_refl (fun x (H : In x []) => match H with end))).
Defined.

(** ** Ids and the counter *)

Lemma all_digits_digits_any (n : Z) : all_chars PyStr.is_digit (PyStr.digits n) = true.
Proof.
  destruct (Z.lt_ge_cases n 0) as [Hneg|Hpos]; [|by apply all_digits_digits].
  unfold PyStr.digits. simpl PyStr.digits_fuel.
  assert (E : (n <? 10) = true) by (apply Z.ltb_lt; lia). rewrite E.
  assert (Hm : 0 <= n mod 10 < 10) by (apply Z.mod_pos_bound; lia).
  destruct (digit_char_digit (n mod 10) Hm) as [Hd _]. simpl. by rewrite Hd.
Qed.

Lemma sign_or_digit_plain (c : ascii) :
  sign_or_digit c = true ->
  PyStr.is_space c = false /\ PyStr.is_int_space c = false /\ not_blank c = true.
Proof. destruct c as [[] [] [] [] [] [] [] []]; vm_compute; intros H; split_and!; congruence. Qed.

Lemma format_03d_chars (n : Z) : all_chars sign_or_digit (PyStr.format_03d n) = true.
Proof.
  assert (Hd : forall s, all_chars PyStr.is_digit s = true -> all_chars sign_or_digit s = true).
  { intros s. apply all_chars_weaken. intros c Hc. unfold sign_or_digit. by rewrite Hc. }
  unfold PyStr.format_03d. destruct (n <? 0).
  - simpl. apply Hd. by rewrite all_chars_app, all_digits_zeros, all_digits_digits_any.
  - apply Hd. by rewrite all_chars_app, all_digits_zeros, all_digits_digits_any.
Qed.

Lemma int_format_03d_any (n : Z) : PyStr.int (PyStr.format_03d n) = Some n.
Proof.
  destruct (Z.lt_ge_cases n 0) as [Hneg|Hpos]; [|by apply int_format_03d].
  unfold PyStr.int. rewrite strip_by_id.
  - unfold PyStr.format_03d. assert (E : (n <? 0) = true) by (apply Z.ltb_lt; lia).
    rewrite E.
    set (k := (2 - String.length (PyStr.digits (- n)))%nat). clearbody k.
    assert (Hv : PyStr.int_digits (PyStr.zeros k +:+ PyStr.digits (- n)) 0 false = Some (- n)).
    { destruct k as [|k]; [apply int_digits_digits; lia|].
      simpl. rewrite int_digits_zeros. apply int_digits_digits. lia. }
    rewrite Hv. simpl. f_equal. lia.
  - apply (all_chars_weaken sign_or_digit); [|apply format_03d_chars].
    intros c Hc. destruct (sign_or_digit_plain c Hc) as (_ & -> & _). done.
Qed.

Lemma prefix_sep_not_blank (c : ascii) (s : string) :
  not_blank c = true -> String.prefix " - " (String c s) = false.
Proof. destruct c as [[] [] [] [] [] [] [] []]; vm_compute; congruence. Qed.

Lemma split_not_blank (s cur : string) :
  all_chars not_blank s = true -> PyStr.split_aux " - " s cur 0 = [cur +:+ s].
Proof.
  revert cur. induction s as [|c s IH]; intros cur H.
  - simpl. by rewrite append_empty_r.
  - simpl in H. apply andb_true_iff in H as [Hc Hs].
    rewrite split_aux_step, (prefix_sep_not_blank c s Hc), IH by done.
    by rewrite append_snoc.
Qed.

Lemma split_issued (t : string) :
  all_chars not_blank t = true ->
  PyStr.split " - " ("MAYOR'S OFFICE - " +:+ t) = ["MAYOR'S OFFICE"; t].
Proof.
  intros Ht.
  assert (H : PyStr.split " - " ("MAYOR'S OFFICE - " +:+ t) =
              "MAYOR'S OFFICE" :: PyStr.split_aux " - " t EmptyString 0)
    by (destruct t; reflexivity).
  rewrite H. by rewrite split_not_blank.
Qed.

Lemma id_number_issued (k : Z) : id_number (issued_id k) = Some k.
Proof.
  unfold id_number, issued_id. rewrite split_issued; [apply int_format_03d_any|].
  apply (all_chars_weaken sign_or_digit); [|apply format_03d_chars].
  intros c Hc. by destruct (sign_or_digit_plain c Hc) as (_ & _ & ->).
Qed.

(** X4. The number read back from an id is the counter value that
    issued it: [_generate_id] at counter [n] returns an id whose number,
    as [_initialize_counter_from_records] reads it, is [n + 1], for
    every integer [n]. *)
Theorem generate_id_number (n : Z) :
  exists i, _generate_id (Some n) = Some (i, Some (n + 1)) /\ id_number i = Some (n + 1).
Proof. eexists. split; [reflexivity|]. apply id_number_issued. Qed.

Lemma seq_shift_map {A} (f : nat -> A) (a k : nat) :
  map f (List.seq (S a) k) = map (fun i => f (S i)) (List.seq a k).
Proof. rewrite <- List.seq_shift, List.map_map. reflexivity. Qed.

Lemma add_records_loaded now reqs st n :
  _id_counter st = Some n ->
  exists new st',
    add_records now reqs st = Some (new, st') /\
    records st' = records st ++ new /\
    _id_counter st' = Some (n + Z.of_nat (length reqs)) /\
    map id new = map (fun i => issued_id (n + Z.of_nat i)) (List.seq 1 (length reqs)) /\
    map sender new = map q_sender reqs /\
    map subject new = map q_subject reqs.
Proof.
  revert st n. induction reqs as [|q reqs IH]; intros st n Hc.
  - exists [], st. simpl. rewrite app_nil_r, Z.add_0_r. by split_and!.
  - simpl add_records.
    pose proof (add_record_loaded now (q_sender q) (q_subject q) (q_destination q)
                  (q_date q) st n Hc) as Hadd.
    cbv zeta in Hadd. rewrite Hadd. clear Hadd.
    set (r := mk_record (_ +:+ PyStr.format_03d (n + 1)) _ _ _ _ _).
    set (st1 := mk_state (Some (n + 1)) _ _ _).
    destruct (IH st1 (n + 1) eq_refl) as (new & st' & Hrun & Hrs & Hcnt & Hids & Hse & Hsu).
    exists (r :: new), st'. rewrite Hrun. split_and!.
    + reflexivity.
    + rewrite Hrs. subst st1. simpl. by rewrite <- app_assoc.
    + rewrite Hcnt. simpl length. f_equal. lia.
    + simpl length. simpl List.seq. simpl map. f_equal.
      rewrite Hids, (seq_shift_map _ 1). apply map_ext. intros i. f_equal. lia.
    + simpl. by rewrite Hse.
    + simpl. by rewrite Hsu.
Qed.

(** X5. Successive calls of [add_record] issue consecutive numbers:
    from a counter at [n], a sequence of calls succeeds, appends its
    records in order behind the old ones, gives the i-th of them the
    number [n + i], and leaves the counter at [n] plus the number of
    calls; the senders and subjects are the ones passed, empty or
    not. *)
Theorem add_records_consecutive now reqs st n :
  _id_counter st = Some n ->
  exists new st',
    add_records now reqs st = Some (new, st') /\
    records st' = records st ++ new /\
    _id_counter st' = Some (n + Z.of_nat (length reqs)) /\
    map (fun r => id_number (id r)) new
      = map (fun i => Some (n + Z.of_nat i)) (List.seq 1 (length reqs)) /\
    map sender new = map q_sender reqs /\
    map subject new = map q_subject reqs.
Proof.
  intros Hc.
  destruct (add_records_loaded now reqs st n Hc) as (new & st' & H & Hrs & Hcnt & Hids & Hs).
  exists new, st'. split_and!; try tauto.
  rewrite <- (List.map_map id id_number), Hids, List.map_map.
  apply map_ext. intros i. apply id_number_issued.
Qed.

Lemma add_records_consecutive_witness :
  exists new st',
    add_records "2025-01-07 10:00:00"
      [mk_request "A" "Invoice" "Finance" None; mk_request "B" "Report" "Ops" None]
      store_002 = Some (new, st') /\
    map (fun r => id_number (id r)) new = [Some 3; Some 4] /\
    _id_counter st' = Some 4.
Proof.
  destruct (add_records_consecutive "2025-01-07 10:00:00"
              [mk_request "A" "Invoice" "Finance" None; mk_request "B" "Report" "Ops" None]
              store_002 2 eq_refl) as (new & st' & H & _ & Hc & Hn & _).
  exists new, st'. split_and!; [exact H | exact Hn | exact Hc].
Defined.

(** X6. The counter survives its file: whatever integer the counter
    holds, negative or not, [_save_counter] followed by [_load_counter]
    gives it back and touches neither the records nor the record
    file. *)
Theorem save_load_counter st n :
  _id_counter st = Some n ->
  _id_counter (_load_counter (_save_counter st)) = Some n /\
  records (_load_counter (_save_counter st)) = records st /\
  data_file (_load_counter (_save_counter st)) = data_file st.
Proof.
  intros Hc. unfold _load_counter, _save_counter. simpl. rewrite Hc. simpl.
  by rewrite strip_str_int, int_str_int.
Qed.

Lemma save_load_counter_witness :
  _id_counter (_load_counter (_save_counter (mk_state (Some (-7)) [] NoFile None)))
  = Some (-7).
Proof.
  apply (save_load_counter (mk_state (Some (-7)) [] NoFile None) (-7)). reflexivity.
Defined.

Lemma from_dict_to_dict now r c :
  well_formed r -> from_dict now (to_dict r) c = Some (r, c).
Proof.
  intros (Hid & Hdate & Hst). unfold from_dict, new_record, to_dict. simpl.
  destruct r as [i d s t de stat]. simpl in *.
  destruct i as [|a i]; [done|]. destruct d as [|b d]; [done|]. simpl.
  destruct Hst as [-> | ->]; reflexivity.
Qed.

(** X7. Saving and reading back is the identity on well-formed
    records: for records that each have an id, a date and a status of
    the two allowed, [from_dict] applied to the objects [to_dict]
    produced returns the same records and leaves the counter alone. *)
Theorem from_dicts_to_dicts now rs c :
  (forall r, In r rs -> well_formed r) ->
  from_dicts now (map to_dict rs) c = Some (rs, c).
Proof.
  induction rs as [|r rs IH]; intros H; [done|].
  simpl. rewrite from_dict_to_dict by (apply H; by left).
  rewrite IH; [done|]. intros x Hx. apply H. by right.
Qed.

Lemma from_dicts_to_dicts_witness :
  from_dicts "2025-01-07 10:00:00" (map to_dict [record_001; record_002]) None
  = Some ([record_001; record_002], None).
Proof.
  apply from_dicts_to_dicts. intros r [<-|[<-|[]]];
    (split_and!; [discriminate | discriminate | by left]).
Defined.

(** ** The counter bounds the ids *)

Lemma new_record_generated now s t d dt auto stat n :
  new_record now s t d dt None auto stat (Some n) =
  Some (mk_record (issued_id (n + 1))
          (if opt_truthy dt then default EmptyString dt
           else if auto then now else "No Date")
          s t d (if in_list stat ["Done"; "Completed"] then "Completed" else "Pending"),
        Some (n + 1)).
Proof. reflexivity. Qed.

Lemma max_counter_of_bound rs r k :
  In r rs -> id_number (id r) = Some k -> k <= max_counter_of rs.
Proof. intros Hr Hk. exact (proj1 (proj2 (scan_fold rs 0)) r k Hr Hk). Qed.

Lemma bounds_by_ids (rs rs' : list DocumentRecord) (n : Z) :
  (forall i, In i (map id rs') -> In i (map id rs)) ->
  (forall r k, In r rs -> id_number (id r) = Some k -> k <= n) ->
  forall r k, In r rs' -> id_number (id r) = Some k -> k <= n.
Proof.
  intros Hsub Hb r k Hr Hk.
  destruct (proj1 (in_map_iff id rs (id r)) (Hsub _ (in_map id _ _ Hr))) as (r0 & Hid & Hr0).
  apply (Hb r0 k Hr0). by rewrite Hid.
Qed.

Lemma initialize_counter_bounds st :
  records st <> [] ->
  exists m,
    _initialize_counter_from_records st
      = mk_state (Some m) (records st) (data_file st) (Some (PyStr.str_int m)) /\
    forall r k, In r (records st) -> id_number (id r) = Some k -> k <= m.
Proof.
  intros Hne. unfold _initialize_counter_from_records.
  destruct (records st) as [|r0 rs0] eqn:E; [done|]. rewrite <- E in *. clear E.
  destruct (_id_counter st) as [n|].
  - destruct (n <? max_counter_of (records st)) eqn:Hlt.
    + eexists. split; [reflexivity|]. apply max_counter_of_bound.
    + apply Z.ltb_ge in Hlt. exists n. split; [reflexivity|].
      intros r k Hr Hk. pose proof (max_counter_of_bound _ r k Hr Hk). lia.
  - eexists. split; [reflexivity|]. apply max_counter_of_bound.
Qed.

(** X8. Whatever the process and the files hold, after
    [RecordKeeper.__init__] the counter is an integer that no id in the
    collection exceeds; and when the load gave at least one record, the
    counter file has been rewritten to hold exactly the counter in
    memory. *)
Theorem init_counter_bounds pandas now class_counter data text :
  counter_bounds (init pandas now class_counter data text) /\
  (records (init pandas now class_counter data text) <> [] ->
   exists m,
     _id_counter (init pandas now class_counter data text) = Some m /\
     counter_file (init pandas now class_counter data text) = Some (PyStr.str_int m)).
Proof.
  assert (Hempty : forall st, records st = [] ->
            counter_bounds (_load_counter st) /\
            (records (_load_counter st) <> [] ->
             exists m, _id_counter (_load_counter st) = Some m /\
                       counter_file (_load_counter st) = Some (PyStr.str_int m))).
  { intros st Hr. unfold _load_counter.
    destruct (counter_file st); simpl; (split; [|by rewrite Hr]);
      (eexists; split; [reflexivity|]; simpl; rewrite Hr; by intros). }
  unfold init, load_records. simpl data_file. simpl _id_counter.
  destruct data as [| |data]; try (by apply Hempty).
  destruct (from_dicts now data class_counter) as [[rs c]|]; [|by apply Hempty].
  set (st2 := _update_existing_dates_to_iso pandas _).
  destruct (records st2) as [|r0 rs0] eqn:E.
  - assert (Hi : _initialize_counter_from_records st2 = st2).
    { unfold _initialize_counter_from_records. by rewrite E. }
    rewrite Hi. by apply Hempty.
  - destruct (initialize_counter_bounds st2) as (m & -> & Hb); [by rewrite E|].
    unfold _load_counter. simpl counter_file. cbv iota.
    rewrite strip_str_int, int_str_int. simpl. split.
    + exists m. split; [reflexivity|]. exact Hb.
    + intros _. exists m. by split.
Qed.

(** X9. When the counter bounds the ids in the collection,
    [add_record] issues an id that no record of the collection carries,
    and the counter bounds the ids of the new collection as well. *)
Theorem add_record_fresh_id now s t d dt st :
  counter_bounds st ->
  exists r st',
    add_record now s t d dt st = Some (r, st') /\
    ~ In (id r) (map id (records st)) /\
    counter_bounds st'.
Proof.
  intros (n & Hc & Hb).
  pose proof (add_record_loaded now s t d dt st n Hc) as Hadd. cbv zeta in Hadd.
  eexists _, _. split; [exact Hadd|]. simpl. split.
  - intros Hin. apply in_map_iff in Hin as (r0 & Hid & Hr0).
    assert (n + 1 <= n); [|lia]. apply (Hb r0 _ Hr0). rewrite Hid.
    apply (id_number_issued (n + 1)).
  - exists (n + 1). split; [reflexivity|]. simpl.
    intros r k [Hr|Hr]%in_app_or Hk.
    + pose proof (Hb r k Hr Hk). lia.
    + destruct Hr as [<-|[]]. simpl in Hk.
      pose proof (id_number_issued (n + 1)) as Hi. unfold issued_id in Hi.
      rewrite Hi in Hk. injection Hk as <-. lia.
Qed.

Lemma add_record_fresh_id_witness :
  exists r st',
    add_record "2025-01-07 10:00:00" "C" "Memo" "HR" None store_002 = Some (r, st') /\
    ~ In (id r) (map id (records store_002)).
Proof.
  destruct (add_record_fresh_id "2025-01-07 10:00:00" "C" "Memo" "HR" None store_002)
    as (r & st' & H & Hfresh & _).
  - exists 2. split; [reflexivity|].
    intros r k [<-|[<-|[]]] Hk; vm_compute in Hk; injection Hk as <-; lia.
  - exists r, st'. by split.
Defined.

Lemma delete_first_subset rid rs rs' :
  delete_first rid rs = Some rs' -> forall x, In x rs' -> In x rs.
Proof.
  revert rs'. induction rs as [|r rs IH]; intros rs'; [done|]. simpl.
  destruct (String.eqb (id r) rid).
  - intros [= <-] x Hx. by right.
  - destruct (delete_first rid rs) as [rs0|]; [|done]. intros [= <-] x [<-|Hx].
    + by left.
    + right. by apply (IH rs0).
Qed.

Lemma loop_bounds_row_error n0 l : loop_bounds n0 l -> loop_bounds n0 (row_error l).
Proof. by intros (n & Hc & Hn & Hb); exists n. Qed.

Lemma loop_bounds_new_record n0 l now s t d dt auto stat :
  loop_bounds n0 l ->
  loop_bounds n0
    match new_record now s t d dt None auto stat (l_counter l) with
    | Some (record, c) => row_append record c l
    | None => row_error l
    end.
Proof.
  intros (n & Hc & Hn & Hb). rewrite Hc, new_record_generated.
  exists (n + 1). split; [reflexivity|]. split; [lia|]. simpl.
  intros r k [Hr|Hr]%in_app_or Hk.
  - pose proof (Hb r k Hr Hk). lia.
  - destruct Hr as [<-|[]]. simpl in Hk. rewrite id_number_issued in Hk.
    injection Hk as <-. lia.
Qed.

Lemma loop_bounds_import_row pandas cols nc dest n0 l row :
  loop_bounds n0 l -> loop_bounds n0 (import_row pandas cols nc dest l row).
Proof.
  intros H. unfold import_row.
  destruct (field cols row (nc !! "sender")) as [s|]; [|by apply loop_bounds_row_error].
  destruct (field cols row (nc !! "subject")) as [t|]; [|by apply loop_bounds_row_error].
  destruct (field cols row dest) as [d|]; [|by apply loop_bounds_row_error].
  destruct (negb (PyStr.truthy s) || negb (PyStr.truthy t)); [done|].
  destruct (field cols row (nc !! "date")) as [raw|]; [|by apply loop_bounds_row_error].
  by apply loop_bounds_new_record.
Qed.

Lemma loop_bounds_restore_entry n0 l e :
  loop_bounds n0 l -> loop_bounds n0 (restore_entry l e).
Proof.
  intros H. unfold restore_entry. destruct e as [|bs bt bd bdt bst];
    [by apply loop_bounds_row_error|].
  destruct (negb _ || negb _); [done|]. by apply loop_bounds_new_record.
Qed.

Lemma loop_bounds_fold {A} (f : Loop -> A -> Loop) n0 (xs : list A) l :
  (forall l x, loop_bounds n0 l -> loop_bounds n0 (f l x)) ->
  loop_bounds n0 l -> loop_bounds n0 (fold_left f xs l).
Proof.
  intros Hf. revert l. induction xs as [|x xs IH]; intros l H; [done|].
  simpl. apply IH. by apply Hf.
Qed.

Lemma counter_bounds_begin_load replace st :
  counter_bounds st ->
  exists n0,
    loop_bounds n0 (mk_loop (records (begin_load replace st))
                      (_id_counter (begin_load replace st)) 0 0) /\
    (replace = false ->
     forall r k, In r (records st) -> id_number (id r) = Some k -> k <= n0).
Proof.
  intros (n & Hc & Hb). destruct replace; simpl.
  - exists 0. split; [|discriminate]. exists 0. split; [reflexivity|]. split; [lia|].
    intros r k [].
  - exists n. split; [|intros _; exact Hb]. exists n. split; [done|]. split; [lia|done].
Qed.

Lemma counter_bounds_end_load replace st0 st n0 l :
  loop_bounds n0 l ->
  (replace = false ->
   forall r k, In r (records st0) -> id_number (id r) = Some k -> k <= n0) ->
  counter_bounds (snd (end_load replace (records st0) st l)).
Proof.
  intros (n & Hc & Hn & Hb) Hold. unfold end_load.
  destruct (0 <? imported_count l)%nat; simpl.
  - exists n. by split.
  - destruct replace; simpl.
    + exists n. by split.
    + exists n. split; [done|]. intros r k Hr Hk.
      pose proof (Hold eq_refl r k Hr Hk). lia.
Qed.

(** X10. The bound of the counter over the ids in the collection is
    kept by [edit_record], [delete_record], [import_from_excel] and
    [restore_from_backup] in both modes and whatever the file holds, and
    [reset_all_data]: if no id exceeded the counter before the call,
    none does after it. *)
Theorem counter_bounds_preserved st :
  counter_bounds st ->
  (forall rid kw, counter_bounds (snd (edit_record rid kw st))) /\
  (forall rid, counter_bounds (snd (delete_record rid st))) /\
  (forall pandas file replace, counter_bounds (snd (import_from_excel pandas file replace st))) /\
  (forall file replace, counter_bounds (snd (restore_from_backup file replace st))) /\
  counter_bounds (snd (reset_all_data st)).
Proof.
  intros Hst. split_and!.
  - intros rid kw. destruct Hst as (n & Hc & Hb). unfold edit_record.
    destruct (edit_first rid kw (records st)) as [rs|] eqn:E; [|by exists n].
    exists n. split; [done|]. simpl. apply (bounds_by_ids (records st)); [|done].
    rewrite (edit_first_ids _ _ _ _ E). done.
  - intros rid. destruct Hst as (n & Hc & Hb). unfold delete_record.
    destruct (delete_first rid (records st)) as [rs|] eqn:E; [|by exists n].
    simpl. destruct rs as [|r rs]; simpl.
    + exists 0. split; [done|]. intros x k [].
    + exists n. split; [done|]. intros x k Hx. apply Hb.
      by apply (delete_first_subset _ _ _ E).
  - intros pandas file replace. unfold import_from_excel.
    destruct (negb (PANDAS_AVAILABLE pandas)); [done|].
    destruct file as [df|]; [|done].
    destruct (filter _ _); [|done].
    destruct (counter_bounds_begin_load replace st Hst) as (n0 & Hl & Hold).
    apply (counter_bounds_end_load replace st _ n0); [|exact Hold].
    unfold import_rows. apply loop_bounds_fold; [|exact Hl].
    intros l row. apply loop_bounds_import_row.
  - intros file replace. unfold restore_from_backup.
    destruct file as [b|]; [|done].
    destruct (has_backup_info b); [|done].
    destruct (backup_records b) as [es|]; [|done].
    destruct (counter_bounds_begin_load replace st Hst) as (n0 & Hl & Hold).
    apply (counter_bounds_end_load replace st _ n0); [|exact Hold].
    apply loop_bounds_fold; [|exact Hl].
    intros l e. apply loop_bounds_restore_entry.
  - exists 0. split; [reflexivity|]. intros r k [].
Qed.

Lemma counter_bounds_preserved_witness :
  counter_bounds
    (snd (import_from_excel no_pandas_parse (Some sparse_sheet) false store_002)).
Proof.
  refine (proj1 (proj2 (proj2 (counter_bounds_preserved store_002 _))) _ _ _).
  exists 2. split; [reflexivity|].
  intros r k [<-|[<-|[]]] Hk; vm_compute in Hk; injection Hk as <-; lia.
Defined.

(** ** What a load leaves in the collection *)

Lemma issued_id_nonempty (k : Z) : issued_id k <> EmptyString.
Proof. discriminate. Qed.

Lemma new_record_id now s t d dt rid auto stat c r c' :
  new_record now s t d dt rid auto stat c = Some (r, c') -> id r <> EmptyString.
Proof.
  unfold new_record. destruct rid as [[|a x]|]; simpl.
  - destruct c; [|done]. by intros [= <- _].
  - by intros [= <- _].
  - destruct c; [|done]. by intros [= <- _].
Qed.

Lemma new_record_well_formed now s t d dt rid auto stat c r c' :
  now <> EmptyString -> auto = true ->
  new_record now s t d dt rid auto stat c = Some (r, c') -> well_formed r.
Proof.
  intros Hnow -> H. split; [by eapply new_record_id|].
  unfold new_record in H.
  destruct (if opt_truthy rid then _ else _) as [[i ci]|]; [|done].
  destruct (in_list stat ["Done"; "Completed"]);
    injection H as <- _; (split; [destruct dt as [[|a x]|]; simpl; done|]);
    [right|left]; reflexivity.
Qed.

Lemma from_dicts_well_formed now data c rs c' :
  now <> EmptyString -> from_dicts now data c = Some (rs, c') ->
  forall r, In r rs -> well_formed r.
Proof.
  intros Hnow. revert c rs c'. induction data as [|sr data IH]; intros c rs c'; simpl.
  - by intros [= <- _] r [].
  - destruct (from_dict now sr c) as [[r0 c0]|] eqn:E0; [|done].
    destruct (from_dicts now data c0) as [[rs0 c1]|] eqn:E1; [|done].
    intros [= <- _] r [<-|Hr].
    + by apply (new_record_well_formed _ _ _ _ _ _ _ _ _ _ _ Hnow eq_refl E0).
    + by apply (IH _ _ _ E1).
Qed.

Lemma update_date_well_formed pandas r :
  well_formed r -> well_formed (fst (update_date pandas r)).
Proof.
  intros (Hid & Hd & Hs). unfold update_date.
  assert (Hrw : forall o,
            well_formed (fst match o with
                             | Some nd =>
                                 if PyStr.truthy nd && negb (String.eqb nd (date r))
                                 then (mk_record (id r) nd (sender r) (subject r)
                                         (destination r) (status r), true)
                                 else (r, false)
                             | None => (r, false)
                             end)).
  { intros [nd|]; [|done]. destruct nd as [|a nd]; [done|]. simpl.
    destruct (negb _); [|done]. by split_and!. }
  destruct (PyStr.truthy (date r) && negb (String.eqb (date r) "No Date")); [|done].
  destruct (_is_readable_format (date r)); [apply Hrw|].
  destruct (_needs_date_format_update (date r)); [apply Hrw|done].
Qed.

Lemma records_update_existing_dates pandas st :
  records (_update_existing_dates_to_iso pandas st)
  = map fst (map (update_date pandas) (records st)).
Proof. unfold _update_existing_dates_to_iso. by destruct (0 <? _)%nat. Qed.

Lemma records_initialize_counter st :
  records (_initialize_counter_from_records st) = records st.
Proof.
  unfold _initialize_counter_from_records. destruct (records st) eqn:E; [done|].
  by rewrite <- E.
Qed.

Lemma records_load_counter st : records (_load_counter st) = records st.
Proof. unfold _load_counter. by destruct (counter_file st). Qed.

(** X11. Whatever the record file holds, every record in the
    collection after [RecordKeeper.__init__] has a non-empty id, a
    non-empty date and a status of "Pending" or "Completed" (the
    current time being a non-empty text). *)
Theorem init_well_formed pandas now class_counter data text :
  now <> EmptyString ->
  forall r, In r (records (init pandas now class_counter data text)) -> well_formed r.
Proof.
  intros Hnow r. unfold init. rewrite records_load_counter. unfold load_records.
  simpl data_file. destruct data as [| |data]; try (by intros []).
  simpl _id_counter.
  destruct (from_dicts now data class_counter) as [[rs c]|] eqn:E; [|by intros []].
  rewrite records_initialize_counter, records_update_existing_dates. simpl records.
  rewrite List.map_map. intros (r0 & <- & Hr0)%in_map_iff.
  apply update_date_well_formed. by apply (from_dicts_well_formed _ _ _ _ _ Hnow E).
Qed.

Lemma init_well_formed_witness :
  Forall well_formed
    (records (init None "2025-01-07 10:00:00" None
                (Stored [mk_stored "MAYOR'S OFFICE - 001" EmptyString "A" "S" "D"
                           (Some "Done")]) None)).
Proof.
  apply List.Forall_forall. apply init_well_formed. discriminate.
Defined.

(** ** Bulk loads *)

Lemma rstrip_by_idem (sp : ascii -> bool) (s : string) :
  PyStr.rstrip_by sp (PyStr.rstrip_by sp s) = PyStr.rstrip_by sp s.
Proof.
  induction s as [|c s IH]; [done|]. simpl.
  destruct (PyStr.rstrip_by sp s) as [|a r] eqn:E.
  - destruct (sp c) eqn:Ec; [done|]. simpl. by rewrite Ec.
  - simpl. simpl in IH. by rewrite IH.
Qed.

Lemma rstrip_by_head (sp : ascii -> bool) (c : ascii) (s : string) :
  sp c = false -> exists r, PyStr.rstrip_by sp (String c s) = String c r.
Proof.
  intros Hc. simpl. destruct (PyStr.rstrip_by sp s); [rewrite Hc|]; by eexists.
Qed.

Lemma lstrip_by_head (sp : ascii -> bool) (s : string) :
  PyStr.lstrip_by sp s = EmptyString \/
  exists c r, PyStr.lstrip_by sp s = String c r /\ sp c = false.
Proof.
  induction s as [|c s IH]; [by left|]. simpl.
  destruct (sp c) eqn:E; [exact IH|]. right. by exists c, s.
Qed.

Lemma strip_by_idem (sp : ascii -> bool) (s : string) :
  PyStr.strip_by sp (PyStr.strip_by sp s) = PyStr.strip_by sp s.
Proof.
  unfold PyStr.strip_by.
  destruct (lstrip_by_head sp s) as [->|(c & r & -> & Hc)]; [done|].
  destruct (rstrip_by_head sp c r Hc) as (r' & Hr).
  assert (Hl : PyStr.lstrip_by sp (PyStr.rstrip_by sp (String c r))
               = PyStr.rstrip_by sp (String c r)).
  { rewrite Hr. simpl. by rewrite Hc. }
  rewrite Hl. apply rstrip_by_idem.
Qed.

Lemma strip_idem (s : string) : PyStr.strip (PyStr.strip s) = PyStr.strip s.
Proof. apply strip_by_idem. Qed.

Lemma field_stripped cols row col s :
  field cols row col = Some s -> PyStr.strip s = s.
Proof.
  unfold field. destruct (opt_truthy col); [|by intros [= <-]].
  destruct (row_get cols row _) as [|text|]; [by intros [= <-]| |done].
  intros [= <-]. apply strip_idem.
Qed.

Lemma classify_valid pandas cols nc dest row s t d dt :
  classify pandas cols nc dest row = Valid s t d dt ->
  s <> EmptyString /\ t <> EmptyString /\ PyStr.strip s = s /\ PyStr.strip t = t /\
  PyStr.strip d = d.
Proof.
  unfold classify.
  destruct (field cols row (nc !! "sender")) as [s0|] eqn:Es; [|done].
  destruct (field cols row (nc !! "subject")) as [t0|] eqn:Et; [|done].
  destruct (field cols row dest) as [d0|] eqn:Ed; [|done].
  case_bool_decide as Hst; [done|].
  destruct (field cols row (nc !! "date")); [|done].
  intros [= <- <- <- _].
  split_and!; eauto using field_stripped.
Qed.

Lemma imported_records pandas cols nc dest n rs r :
  In r (imported pandas cols nc dest n rs) ->
  sender r <> EmptyString /\ subject r <> EmptyString /\ date r <> EmptyString /\
  status r = "Pending" /\
  PyStr.strip (sender r) = sender r /\ PyStr.strip (subject r) = subject r /\
  PyStr.strip (destination r) = destination r /\
  exists k, n < k /\ id r = issued_id k.
Proof.
  revert n. induction rs as [|row rs IH]; intros n; [done|]. simpl.
  assert (Hlater : In r (imported pandas cols nc dest n rs) -> _) by apply (IH n).
  destruct (classify pandas cols nc dest row) as [s t d dt| |] eqn:E; try exact Hlater.
  destruct (classify_valid _ _ _ _ _ _ _ _ _ E) as (Hs & Ht & Hss & Hts & Hds).
  intros [<-|Hr].
  - simpl. split_and!; try done.
    + destruct dt as [[|a x]|]; done.
    + exists (n + 1). split; [lia|done].
  - destruct (IH (n + 1) Hr) as (? & ? & ? & ? & ? & ? & ? & k & Hk & Hid).
    split_and!; try done. exists k. split; [lia|done].
Qed.


(** X12. Every record a tabular import creates has a non-empty sender
    and subject, a non-empty date, status "Pending", sender, subject and
    destination without surrounding whitespace, and an id issued above
    the counter the import started from; the old records stay in front
    of them. *)
Theorem import_rows_records pandas df st n :
  _id_counter st = Some n ->
  exists new,
    l_records (import_rows pandas df st) = records st ++ new /\
    forall r, In r new ->
      sender r <> EmptyString /\ subject r <> EmptyString /\ date r <> EmptyString /\
      status r = "Pending" /\
      PyStr.strip (sender r) = sender r /\ PyStr.strip (subject r) = subject r /\
      PyStr.strip (destination r) = destination r /\
      exists k, n < k /\ id r = issued_id k.
Proof.
  intros Hc. destruct (import_rows_loaded pandas df st n Hc) as [-> _].
  eexists. split; [reflexivity|]. intros r. apply imported_records.
Qed.

Lemma import_rows_records_witness :
  exists new,
    l_records (import_rows no_pandas_parse sparse_sheet store_001) = records store_001 ++ new /\
    forall r, In r new -> sender r <> EmptyString /\ subject r <> EmptyString.
Proof.
  destruct (import_rows_records no_pandas_parse sparse_sheet store_001 1 eq_refl)
    as (new & Hrs & Hall).
  exists new. split; [exact Hrs|]. intros r Hr.
  destruct (Hall r Hr) as (Hs & Ht & _). by split.
Defined.



(** ** Backup restore *)


Section RestoreFacts.





Lemma restore_entry_backup (l : Loop) (r : DocumentRecord) (n : Z) :
  l_counter l = Some n -> restorable r ->
  restore_entry l (backup_entry (to_dict r))
  = row_append (mk_record (issued_id (n + 1)) (date r) (sender r) (subject r)
                  (destination r) (status r)) (Some (n + 1)) l.
Proof.
  intros Hc (Hs & Ht & Hd & Hst). unfold restore_entry, backup_entry, to_dict. simpl.
  destruct (sender r) as [|a s] eqn:Es; [done|].
  destruct (subject r) as [|b t] eqn:Et; [done|]. simpl.
  unfold new_record. rewrite Hc. simpl.
  destruct (date r) as [|c d] eqn:Ed; [done|]. simpl.
  by destruct Hst as [-> | ->].
Qed.

Lemma restore_fold_backup (rs : list DocumentRecord) (l : Loop) (n : Z) :
  l_counter l = Some n -> (forall r, In r rs -> restorable r) ->
  fold_left restore_entry (map backup_entry (map to_dict rs)) l
  = mk_loop (l_records l ++ renumbered n rs) (Some (n + Z.of_nat (length rs)))
      (imported_count l + length rs) (error_count l).
Proof.
  revert l n. induction rs as [|r rs IH]; intros l n Hc Hall.
  - simpl. rewrite app_nil_r, Z.add_0_r, Nat.add_0_r, <- Hc. by destruct l.
  - change (map backup_entry (map to_dict (r :: rs)))
      with (backup_entry (to_dict r) :: map backup_entry (map to_dict rs)).
    cbn [fold_left].
    rewrite (restore_entry_backup l r n Hc) by (apply Hall; by left).
    rewrite (IH _ (n + 1)); [|done|intros r' Hr'; apply Hall; by right].
    simpl. rewrite <- app_assoc. simpl. f_equal; [f_equal|]; lia.
Qed.

End RestoreFacts.

Lemma renumbered_content (n : Z) (rs : list DocumentRecord) :
  map content (renumbered n rs) = map content rs.
Proof. revert n. induction rs as [|r rs IH]; intros n; [done|]. simpl. by rewrite IH. Qed.

Lemma renumbered_ids (n : Z) (rs : list DocumentRecord) :
  map id (renumbered n rs)
  = map (fun i => issued_id (n + Z.of_nat i)) (List.seq 1 (length rs)).
Proof.
  revert n. induction rs as [|r rs IH]; intros n; [done|]. simpl. f_equal.
  rewrite IH, (seq_shift_map _ 1). apply map_ext. intros i. f_equal. lia.
Qed.





(** X16. Backup and restore round trip.  When the collection is not
    empty and every record has a non-empty sender, subject and date and
    an allowed status, the archive [export_backup] writes restores, in
    replace mode and over any state, to the same records in the same
    order with everything but the id kept; the ids are renumbered from
    001 and the counter is the number of records. *)
Theorem backup_restore_round_trip st target :
  records st <> [] ->
  (forall r, In r (records st) -> restorable r) ->
  exists b,
    export_backup st = Some b /\
    restore_from_backup (Some b) true target
    = (true, mk_state (Some (Z.of_nat (length (records st)))) (renumbered 0 (records st))
               (Stored (map to_dict (renumbered 0 (records st)))) (Some "0")) /\
    map content (renumbered 0 (records st)) = map content (records st) /\
    map id (renumbered 0 (records st))
    = map (fun i => issued_id (Z.of_nat i)) (List.seq 1 (length (records st))).
Proof.
  intros Hne Hall. exists (mk_backup true (Some (map backup_entry (map to_dict (records st))))).
  split_and!.
  - unfold export_backup, get_all_records. by destruct (records st).
  - unfold restore_from_backup. simpl has_backup_info. simpl backup_records. cbv iota beta.
    rewrite (restore_fold_backup (records st)
               (mk_loop (records (begin_load true target))
                  (_id_counter (begin_load true target)) 0 0) 0 eq_refl Hall).
    unfold end_load. simpl.
    destruct (records st) as [|r rs]; [done|]. reflexivity.
  - apply renumbered_content.
  - rewrite renumbered_ids. apply map_ext. intros i. f_equal.
Qed.

Lemma backup_restore_round_trip_witness :
  exists b,
    export_backup store_002 = Some b /\
    fst (restore_from_backup (Some b) true store_001) = true /\
    map content (records (snd (restore_from_backup (Some b) true store_001)))
    = map content (records store_002).
Proof.
  destruct (backup_restore_round_trip store_002 store_001) as (b & Hb & Hrun & Hc & _).
  - discriminate.
  - intros r [<-|[<-|[]]]; repeat split; try discriminate; vm_compute; tauto.
  - exists b. rewrite Hrun. by split_and!.
Defined.

(** ** Date ranges *)

Lemma str_le_refl (a : string) : str_le a a = true.
Proof.
  induction a as [|x a IH]; [done|]. simpl.
  by rewrite Z.ltb_irrefl, Z.eqb_refl.
Qed.

Lemma str_le_trans (a b c : string) :
  str_le a b = true -> str_le b c = true -> str_le a c = true.
Proof.
  revert b c. induction a as [|x a IH]; intros [|y b] [|z c]; simpl; try done.
  destruct (PyStr.code x <? PyStr.code y) eqn:Exy;
    destruct (PyStr.code y <? PyStr.code z) eqn:Eyz;
    destruct (PyStr.code x =? PyStr.code y) eqn:Exy';
    destruct (PyStr.code y =? PyStr.code z) eqn:Eyz';
    destruct (PyStr.code x <? PyStr.code z) eqn:Exz;
    destruct (PyStr.code x =? PyStr.code z) eqn:Exz';
    try done; try lia; eauto.
Qed.

Lemma date_range_fold (f : DocumentRecord -> bool) (rs acc : list DocumentRecord) :
  fold_left (fun matching record => if f record then matching ++ [record] else matching) rs acc
  = acc ++ List.filter f rs.
Proof.
  revert acc. induction rs as [|r rs IH]; intros acc; simpl.
  - by rewrite app_nil_r.
  - rewrite IH. destruct (f r); [|done]. by rewrite <- app_assoc.
Qed.

Lemma prefix_blank (c : ascii) (s : string) :
  String.prefix " " (String c s) = negb (not_blank c).
Proof. destruct c as [[] [] [] [] [] [] [] []]; destruct s; reflexivity. Qed.

Lemma split_blank_head (d rest cur : string) :
  all_chars not_blank d = true ->
  hd EmptyString (PyStr.split_aux " " (d +:+ String " " rest) cur 0) = cur +:+ d.
Proof.
  revert cur. induction d as [|c d IH]; intros cur H.
  - change (EmptyString +:+ String " " rest) with (String " " rest).
    rewrite split_aux_step, prefix_blank. simpl. by rewrite append_empty_r.
  - simpl in H. apply andb_true_iff in H as [Hc Hd].
    rewrite append_cons, split_aux_step, prefix_blank, Hc. simpl negb. cbv iota.
    rewrite IH by done. by rewrite append_snoc.
Qed.

Lemma split_blank_whole (d cur : string) :
  all_chars not_blank d = true -> PyStr.split_aux " " d cur 0 = [cur +:+ d].
Proof.
  revert cur. induction d as [|c d IH]; intros cur H.
  - simpl. by rewrite append_empty_r.
  - simpl in H. apply andb_true_iff in H as [Hc Hd].
    rewrite split_aux_step, prefix_blank, Hc. simpl negb. cbv iota.
    rewrite IH by done. by rewrite append_snoc.
Qed.

Lemma date_part_date_time (d t : string) :
  all_chars not_blank d = true -> date_part (d +:+ String " " t) = d.
Proof. intros H. unfold date_part, PyStr.split. by rewrite split_blank_head. Qed.

Lemma date_part_date (d : string) :
  all_chars not_blank d = true -> date_part d = d.
Proof. intros H. unfold date_part, PyStr.split. by rewrite split_blank_whole. Qed.

(** X17. [get_records_by_date_range] returns, in collection order, the
    records whose date up to the first blank lies between the two bounds
    in string order.  A record dated [d] or [d], a blank and a time of
    day is returned exactly when [start <= d <= end] ([d] without
    blanks), so the time of day never matters; and a range whose start
    is above its end returns nothing. *)
Theorem date_range_spec (start_date end_date : string) (st : State) :
  get_records_by_date_range start_date end_date st
  = List.filter (in_range start_date end_date) (records st) /\
  (forall r d t,
     In r (records st) -> all_chars not_blank d = true ->
     date r = d \/ date r = d +:+ String " " t ->
     (In r (get_records_by_date_range start_date end_date st) <->
      str_le start_date d = true /\ str_le d end_date = true)) /\
  (str_le start_date end_date = false ->
   get_records_by_date_range start_date end_date st = []).
Proof.
  assert (Heq : get_records_by_date_range start_date end_date st
                = List.filter (in_range start_date end_date) (records st)).
  { unfold get_records_by_date_range.
    apply (date_range_fold (in_range start_date end_date) (records st) []). }
  rewrite Heq. split_and!; [done| |].
  - intros r d t Hr Hd Hdate. rewrite List.filter_In. unfold in_range.
    assert (Hpart : date_part (date r) = d).
    { destruct Hdate as [-> | ->]; [by apply date_part_date|by apply date_part_date_time]. }
    rewrite Hpart, andb_true_iff. tauto.
  - intros Hrev. clear Heq. induction (records st) as [|r rs IH]; [done|]. simpl.
    destruct (in_range start_date end_date r) eqn:E; [|exact IH].
    unfold in_range in E. apply andb_true_iff in E as [E1 E2].
    by rewrite (str_le_trans _ _ _ E1 E2) in Hrev.
Qed.

Lemma date_range_spec_witness :
  get_records_by_date_range "2025-02-01" "2025-01-01" store_legacy = [] /\
  (In (mk_record "LGU_TNGLN-MAYOR'S OFFICE - 007" "2025-01-07 10:30:00" "A" "S" "D" "Pending")
      (get_records_by_date_range "2025-01-07" "2025-01-07" store_legacy) <->
   str_le "2025-01-07" "2025-01-07" = true /\ str_le "2025-01-07" "2025-01-07" = true).
Proof.
  split.
  - apply (proj2 (proj2 (date_range_spec "2025-02-01" "2025-01-01" store_legacy))).
    reflexivity.
  - apply (proj1 (proj2 (date_range_spec "2025-01-07" "2025-01-07" store_legacy))
             _ "2025-01-07" "10:30:00").
    + by left.
    + reflexivity.
    + by right.
Defined.

(** ** Migration of the ids of the old format *)

Lemma prefix_append (p s : string) :
  String.prefix p s = true -> exists t, s = p +:+ t.
Proof.
  revert s. induction p as [|a p IH]; intros s H.
  - by exists s.
  - destruct s as [|b s]; [done|]. simpl in H.
    destruct (Ascii.ascii_dec a b) as [<-|Hne]; [|done].
    destruct (IH s H) as (t & ->). by exists t.
Qed.

Lemma split_aux_nonempty (sep s cur : string) (k : nat) :
  PyStr.split_aux sep s cur k <> [].
Proof.
  revert cur k. induction s as [|c s IH]; intros cur k; [done|].
  destruct k; [|apply IH]. rewrite split_aux_step.
  destruct (String.prefix sep (String c s)); [done|apply IH].
Qed.

Lemma split_legacy (t : string) :
  PyStr.split " - " (legacy_prefix +:+ t)
  = "LGU_TNGLN-MAYOR'S OFFICE" :: PyStr.split " - " t.
Proof. destruct t; reflexivity. Qed.

Lemma split_new (t : string) :
  PyStr.split " - " ("MAYOR'S OFFICE - " +:+ t) = "MAYOR'S OFFICE" :: PyStr.split " - " t.
Proof. destruct t; reflexivity. Qed.

Lemma last_cons_nonempty {A} (x : A) (l : list A) (d : A) :
  l <> [] -> List.last (x :: l) d = List.last l d.
Proof. by destruct l. Qed.

Lemma new_format_id_legacy (r : DocumentRecord) (t : string) :
  id r = legacy_prefix +:+ t ->
  new_format_id r
  = (mk_record ("MAYOR'S OFFICE - " +:+ List.last (PyStr.split " - " t) EmptyString)
       (date r) (sender r) (subject r) (destination r) (status r), true).
Proof.
  intros Hid. unfold new_format_id. rewrite Hid.
  assert (Hp : startswith "LGU_TNGLN-MAYOR'S OFFICE - " (legacy_prefix +:+ t) = true)
    by (destruct t; reflexivity).
  rewrite Hp, split_legacy.
  assert (Hne : PyStr.split " - " t <> []) by apply split_aux_nonempty.
  rewrite last_cons_nonempty by done.
  destruct (PyStr.split " - " t) as [|x l]; [done|]. reflexivity.
Qed.

Lemma new_format_id_cases (r : DocumentRecord) :
  (startswith legacy_prefix (id r) = false /\ new_format_id r = (r, false)) \/
  (exists x, startswith legacy_prefix (id r) = true /\
             new_format_id r
             = (mk_record ("MAYOR'S OFFICE - " +:+ x) (date r) (sender r) (subject r)
                  (destination r) (status r), true)).
Proof.
  destruct (startswith legacy_prefix (id r)) eqn:E.
  - right. destruct (prefix_append _ _ E) as (t & Ht).
    eexists. split; [done|]. by apply new_format_id_legacy.
  - left. split; [done|]. unfold new_format_id. fold legacy_prefix. by rewrite E.
Qed.

Lemma new_format_id_idem (r : DocumentRecord) :
  new_format_id (fst (new_format_id r)) = (fst (new_format_id r), false).
Proof.
  destruct (new_format_id_cases r) as [[E ->]|(x & E & ->)]; simpl.
  - unfold new_format_id. fold legacy_prefix. by rewrite E.
  - reflexivity.
Qed.

Lemma new_format_ids_idem (rs : list DocumentRecord) :
  map new_format_id (map fst (map new_format_id rs))
  = map (fun r => (r, false)) (map fst (map new_format_id rs)).
Proof.
  induction rs as [|r rs IH]; [done|]. simpl. by rewrite new_format_id_idem, IH.
Qed.

Lemma filter_changed_none (rs : list DocumentRecord) :
  filter (fun p : DocumentRecord * bool => snd p = true) (map (fun r => (r, false)) rs) = [].
Proof.
  induction rs as [|r rs IH]; [done|]. simpl.
  rewrite filter_cons_False by (simpl; discriminate). exact IH.
Qed.

Lemma map_fst_unchanged (rs : list DocumentRecord) :
  map fst (map (fun r : DocumentRecord => (r, false)) rs) = rs.
Proof. induction rs as [|r rs IH]; [done|]. simpl. by rewrite IH. Qed.

Lemma new_format_ids_unchanged (rs : list DocumentRecord) :
  (forall r, In r rs -> startswith legacy_prefix (id r) = false) ->
  map new_format_id rs = map (fun r => (r, false)) rs.
Proof.
  intros H. apply map_ext_in. intros r Hr.
  unfold new_format_id. fold legacy_prefix. by rewrite (H r Hr).
Qed.

Lemma update_ids_unchanged (st : State) :
  (forall r, In r (records st) -> startswith legacy_prefix (id r) = false) ->
  update_existing_ids_to_new_format st = (true, st).
Proof.
  intros H. unfold update_existing_ids_to_new_format.
  rewrite (new_format_ids_unchanged _ H), filter_changed_none, map_fst_unchanged.
  simpl. by destruct st.
Qed.

Lemma records_update_ids (st : State) :
  records (snd (update_existing_ids_to_new_format st))
  = map fst (map new_format_id (records st)).
Proof. unfold update_existing_ids_to_new_format. simpl. by destruct (0 <? _)%nat. Qed.

(** X18. [update_existing_ids_to_new_format] always returns [True],
    keeps the records in place with everything but the id as it was,
    and leaves no id of the old format behind; a store without ids of
    the old format is returned as it is, the record file not written;
    so running the migration a second time changes nothing. *)
Theorem update_ids_spec (st : State) :
  fst (update_existing_ids_to_new_format st) = true /\
  map content (records (snd (update_existing_ids_to_new_format st)))
  = map content (records st) /\
  (forall r, In r (records (snd (update_existing_ids_to_new_format st))) ->
             startswith legacy_prefix (id r) = false) /\
  ((forall r, In r (records st) -> startswith legacy_prefix (id r) = false) ->
   update_existing_ids_to_new_format st = (true, st)) /\
  update_existing_ids_to_new_format (snd (update_existing_ids_to_new_format st))
  = (true, snd (update_existing_ids_to_new_format st)).
Proof.
  assert (Hclean : forall r, In r (records (snd (update_existing_ids_to_new_format st))) ->
                             startswith legacy_prefix (id r) = false).
  { intros r. rewrite records_update_ids, List.map_map.
    intros (r0 & <- & _)%in_map_iff.
    destruct (new_format_id_cases r0) as [[E ->]|(x & E & ->)]; [done|reflexivity]. }
  split_and!.
  - reflexivity.
  - rewrite records_update_ids, !List.map_map. apply map_ext. intros r.
    by destruct (new_format_id_cases r) as [[E ->]|(x & E & ->)].
  - exact Hclean.
  - apply update_ids_unchanged.
  - by apply update_ids_unchanged.
Qed.

Lemma update_ids_spec_witness :
  update_existing_ids_to_new_format store_001 = (true, store_001).
Proof.
  apply (proj1 (proj2 (proj2 (proj2 (update_ids_spec store_001))))).
  intros r [<-|[]]. reflexivity.
Defined.

(** X19. A record whose id is the old prefix followed by a number part
    without blanks gets the id "MAYOR'S OFFICE - " followed by the same
    number part; the number the counter initialiser reads from the id
    is the same before and after, and the record file is written with
    the new ids. *)
Theorem update_ids_keeps_number (st : State) (i : nat) (r : DocumentRecord) (t : string) :
  records st !! i = Some r ->
  id r = legacy_prefix +:+ t ->
  all_chars not_blank t = true ->
  exists r',
    records (snd (update_existing_ids_to_new_format st)) !! i = Some r' /\
    id r' = "MAYOR'S OFFICE - " +:+ t /\
    content r' = content r /\
    id_number (id r') = id_number (id r) /\
    data_file (snd (update_existing_ids_to_new_format st))
    = Stored (map to_dict (records (snd (update_existing_ids_to_new_format st)))).
Proof.
  intros Hi Hid Ht.
  assert (Hsplit : PyStr.split " - " t = [t]).
  { unfold PyStr.split. by rewrite split_not_blank. }
  pose proof (new_format_id_legacy r t Hid) as Hnew. rewrite Hsplit in Hnew. simpl in Hnew.
  eexists. split_and!.
  - rewrite records_update_ids, !list_lookup_fmap, Hi. simpl. by rewrite Hnew.
  - reflexivity.
  - reflexivity.
  - simpl. unfold id_number. by rewrite Hid, split_legacy, split_new.
  - unfold update_existing_ids_to_new_format. simpl.
    assert (Hpos : (0 <? length (filter (fun p : DocumentRecord * bool => snd p = true)
                                   (map new_format_id (records st))))%nat = true).
    { apply Nat.ltb_lt.
      assert (Hin : (mk_record ("MAYOR'S OFFICE - " +:+ t) (date r) (sender r) (subject r)
                       (destination r) (status r), true)
                    ∈ filter (fun p : DocumentRecord * bool => snd p = true)
                        (map new_format_id (records st))).
      { apply list_elem_of_filter. split; [done|]. rewrite <- Hnew.
        apply list_elem_of_fmap. exists r. split; [done|]. by eapply list_elem_of_lookup_2. }
      destruct (filter _ _); [by apply not_elem_of_nil in Hin|simpl; lia]. }
    rewrite Hpos. reflexivity.
Qed.

Lemma update_ids_keeps_number_witness :
  exists r',
    records (snd (update_existing_ids_to_new_format store_legacy)) !! 0%nat = Some r' /\
    id r' = "MAYOR'S OFFICE - 007".
Proof.
  destruct (update_ids_keeps_number store_legacy 0
              (mk_record "LGU_TNGLN-MAYOR'S OFFICE - 007" "2025-01-07 10:30:00" "A" "S" "D"
                 "Pending") "007" eq_refl eq_refl eq_refl)
    as (r' & Hr' & Hid & _).
  exists r'. by split.
Defined.
